(** * Verification of the chat proxy, the account handlers and the chat panel

    The development embeds the Express handlers ([/api/register],
    [/api/login], [/api/chat], [/api/langgraph/health]) and the Vue chat
    component's [sendMessage] of [contact/InteractiveAIChat.vue] as Rocq
    functions over a model of the JSON values they handle, and proves the
    properties the specification states about them.

    - A handler is a computation that logs its outbound calls (HTTP
      requests, database queries) and returns or throws; the services it
      calls (clock, network, database, password hashing) are the fields of a
      [world].
    - JavaScript's coercions are modelled where the code relies on them:
      truthiness, property reads that throw on [null] and [undefined],
      [Array.prototype.map], template literals and comparisons that throw
      on an object that cannot be made a primitive, [JSON.stringify].
    - Numbers are the engine's doubles; how a number is printed and how a
      string is read as a number are the engine's, and so is
      [String.prototype.trim]: they are parameters.  Console output is not
      modelled. *)

From Stdlib Require Import String Ascii List ZArith Lia Bool DecimalString.
From Stdlib Require Import PrimFloat FloatOps Uint63.
From stdpp Require Import base list.
Import ListNotations.
Local Open Scope string_scope.
Local Open Scope Z_scope.
Local Set Warnings "-register-all".

(** ** Text *)

Module Text.

Definition nl : string := String (ascii_of_nat 10) EmptyString.
Definition dquote : string := String (ascii_of_nat 34) EmptyString.
Definition backslash : string := String (ascii_of_nat 92) EmptyString.

(** [Array.prototype.join] on strings. *)
Fixpoint join (sep : string) (parts : list string) : string :=
  match parts with
  | [] => ""
  | [p] => p
  | p :: rest => p ++ sep ++ join sep rest
  end.

(** Decimal rendering of an integer, as [Number.prototype.toString]. *)
Definition decimal (n : Z) : string := NilZero.string_of_int (Z.to_int n).

Definition nonempty (s : string) : bool :=
  match s with EmptyString => false | String _ _ => true end.

End Text.

(** ** JavaScript values

    The handlers read request and response bodies that were parsed from
    JSON, and test them with the language's own coercions: truthiness,
    property reads that throw on [null] and [undefined], [Array.prototype.map],
    template literals, comparisons and [JSON.stringify]. *)

Module Js.

Inductive value : Type :=
| VUndef
| VNull
| VBool (b : bool)
| VNum (n : float)
| VStr (s : string)
| VArr (items : list value)
| VObj (fields : list (string * value)).

(** Induction on a value and, with it, on the entries of its arrays and the
    fields of its objects. *)
Section Induction.

Variable P : value -> Prop.
Hypothesis Pundef : P VUndef.
Hypothesis Pnull : P VNull.
Hypothesis Pbool : forall b, P (VBool b).
Hypothesis Pnum : forall n, P (VNum n).
Hypothesis Pstr : forall s, P (VStr s).
Hypothesis Parr : forall items, Forall P items -> P (VArr items).
Hypothesis Pobj : forall fields, Forall (fun kx => P (snd kx)) fields -> P (VObj fields).

Fixpoint value_induction (v : value) : P v :=
  match v with
  | VUndef => Pundef
  | VNull => Pnull
  | VBool b => Pbool b
  | VNum n => Pnum n
  | VStr s => Pstr s
  | VArr items =>
      Parr items
        ((fix entries (l : list value) : Forall P l :=
            match l with
            | [] => @List.Forall_nil _ P
            | x :: rest => @List.Forall_cons _ P x rest (value_induction x) (entries rest)
            end) items)
  | VObj fields =>
      Pobj fields
        ((fix members (l : list (string * value)) : Forall (fun kx => P (snd kx)) l :=
            match l with
            | [] => @List.Forall_nil _ (fun kx => P (snd kx))
            | kx :: rest =>
                @List.Forall_cons _ (fun kx => P (snd kx)) kx rest
                  (value_induction (snd kx)) (members rest)
            end) fields)
  end.

End Induction.

(** A thrown [Error]: its [message] and, for database errors, its [code]. *)
Record error : Type := mkError { message : string; code : option string }.

Inductive result (A : Type) : Type :=
| Ok (a : A)
| Throw (e : error).
Arguments Ok {A} a.
Arguments Throw {A} e.

Local Notation "'let*' x ':=' e 'in' k" :=
  (match e with Ok x => k | Throw err => Throw err end)
  (at level 10, x name, e at level 100, k at level 200, only parsing).

Definition TypeError (msg : string) : error := mkError msg None.

(** What the engine does between numbers and their texts: [StringToNumber]
    (whose [NaN] is the double's) and [Number::toString]. *)
Record engine : Type := mkEngine {
  StringToNumber : string -> float;
  NumberToString : float -> string
}.

(** [ToBoolean]: what [if (v)], [!v], [v && _] and [v || _] test.  A number
    is false when it is zero or [NaN]. *)
Definition truthy (v : value) : bool :=
  match v with
  | VUndef | VNull => false
  | VBool b => b
  | VNum n => negb (PrimFloat.eqb n 0 || PrimFloat.is_nan n)
  | VStr s => Text.nonempty s
  | VArr _ | VObj _ => true
  end.

(** [a || b] *)
Definition or_else (a b : value) : value := if truthy a then a else b.

(** Own field of an object; [undefined] when there is none. *)
Fixpoint lookup (key : string) (fields : list (string * value)) : value :=
  match fields with
  | [] => VUndef
  | (k, v) :: rest => if String.eqb k key then v else lookup key rest
  end.

(** Whether an object has a field of that name of its own. *)
Fixpoint has_own (key : string) (fields : list (string * value)) : bool :=
  match fields with
  | [] => false
  | (k, _) :: rest => String.eqb k key || has_own key rest
  end.

Definition type_name (v : value) : string :=
  match v with VNull => "null" | _ => "undefined" end.

(** The property read [v.p], for a name [p] that no prototype defines (every
    name the handlers read but [length] and [map], which have functions of
    their own below): it throws on [null] and [undefined], gives the own field
    of an object and [undefined] on everything else.  The message is the one
    Node's engine gives. *)
Definition get (v : value) (p : string) : result value :=
  match v with
  | VUndef | VNull =>
      Throw (TypeError ("Cannot read properties of " ++ type_name v
                          ++ " (reading '" ++ p ++ "')"))
  | VObj fields => Ok (lookup p fields)
  | _ => Ok VUndef
  end.

(** Destructuring [const { p } = obj] of an object given by its fields. *)
Definition field (fields : list (string * value)) (p : string) : value :=
  lookup p fields.

(** *** Arrays *)

(** [l.push(x)] *)
Definition push {A : Type} (l : list A) (x : A) : list A := (l ++ [x])%list.

Fixpoint map_result {A B : Type} (f : A -> result B) (l : list A) : result (list B) :=
  match l with
  | [] => Ok []
  | x :: rest =>
      match f x with
      | Throw e => Throw e
      | Ok y => match map_result f rest with
                | Throw e => Throw e
                | Ok ys => Ok (y :: ys)
                end
      end
  end.

(** [v.map(f)], where [expr] is the source text of [v] for the engine's
    message: only an array has a [map]. *)
Definition array_map {B : Type} (expr : string) (v : value) (f : value -> result B)
  : result (list B) :=
  match v with
  | VArr items => map_result f items
  | VUndef | VNull =>
      Throw (TypeError ("Cannot read properties of " ++ type_name v ++ " (reading 'map')"))
  | _ => Throw (TypeError (expr ++ ".map is not a function"))
  end.

Definition last_char (s : string) : value :=
  match rev (list_ascii_of_string s) with
  | [] => VUndef
  | c :: _ => VStr (String c "")
  end.

(** *** JSON.stringify: the quoting of strings *)

Definition hex_digit (n : nat) : ascii :=
  ascii_of_nat (if Nat.ltb n 10 then 48 + n else 87 + n).

Definition quote_char (c : ascii) : string :=
  let n := nat_of_ascii c in
  if Nat.eqb n 34 then Text.backslash ++ Text.dquote
  else if Nat.eqb n 92 then Text.backslash ++ Text.backslash
  else if Nat.eqb n 8 then Text.backslash ++ "b"
  else if Nat.eqb n 12 then Text.backslash ++ "f"
  else if Nat.eqb n 10 then Text.backslash ++ "n"
  else if Nat.eqb n 13 then Text.backslash ++ "r"
  else if Nat.eqb n 9 then Text.backslash ++ "t"
  else if Nat.ltb n 32 then
    Text.backslash ++ "u00"
      ++ String (hex_digit (Nat.div n 16)) (String (hex_digit (Nat.modulo n 16)) "")
  else String c "".

Fixpoint quote_body (s : string) : string :=
  match s with
  | EmptyString => ""
  | String c rest => quote_char c ++ quote_body rest
  end.

Definition quote (s : string) : string := Text.dquote ++ quote_body s ++ Text.dquote.

Section Engine.

Variable E : engine.

(** [ToString], as a template literal and [new Error(x)] apply it.  An
    object is made a primitive by its [toString]: the prototype's gives
    [[object Object]], but a field of that name of the object's own, which
    no JSON value makes callable, leaves no way and the engine throws.  An
    array joins the texts of its entries, [null] and [undefined] counting as
    empty. *)
Fixpoint to_string (v : value) : result string :=
  match v with
  | VUndef => Ok "undefined"
  | VNull => Ok "null"
  | VBool true => Ok "true"
  | VBool false => Ok "false"
  | VNum n => Ok (NumberToString E n)
  | VStr s => Ok s
  | VArr items =>
      let* texts :=
        (fix each (l : list value) : result (list string) :=
           match l with
           | [] => Ok []
           | x :: rest =>
               let* s := match x with
                         | VUndef | VNull => Ok ""
                         | _ => to_string x
                         end in
               let* ss := each rest in
               Ok (s :: ss)
           end) items in
      Ok (Text.join "," texts)
  | VObj fields =>
      if has_own "toString" fields
      then Throw (TypeError "Cannot convert object to primitive value")
      else Ok "[object Object]"
  end.

(** [JSON.stringify v]; [None] is its [undefined] result.  A field whose
    value is [undefined] is left out, an [undefined] array entry is [null],
    and so is a number that is not finite. *)
Fixpoint stringify (v : value) : option string :=
  match v with
  | VUndef => None
  | VNull => Some "null"
  | VBool true => Some "true"
  | VBool false => Some "false"
  | VNum n => Some (if PrimFloat.is_finite n then NumberToString E n else "null")
  | VStr s => Some (quote s)
  | VArr items =>
      Some ("[" ++ Text.join ","
                    (map (fun x => match stringify x with
                                   | Some s => s
                                   | None => "null"
                                   end) items) ++ "]")
  | VObj fields =>
      Some ("{" ++ Text.join ","
                    ((fix members (fs : list (string * value)) : list string :=
                        match fs with
                        | [] => []
                        | (k, x) :: rest =>
                            match stringify x with
                            | Some s => (quote k ++ ":" ++ s) :: members rest
                            | None => members rest
                            end
                        end) fields) ++ "}")
  end.

(** [JSON.stringify v] where a string is needed (a request body). *)
Definition stringify_text (v : value) : string :=
  match stringify v with Some s => s | None => "undefined" end.

(** [ToNumber].  An array is made a primitive by its [toString], and so is
    an object, whose text is no number. *)
Definition to_number (v : value) : result float :=
  match v with
  | VUndef => Ok PrimFloat.nan
  | VNull => Ok PrimFloat.zero
  | VBool b => Ok (if b then PrimFloat.one else PrimFloat.zero)
  | VNum n => Ok n
  | VStr s => Ok (StringToNumber E s)
  | VArr _ => let* s := to_string v in Ok (StringToNumber E s)
  | VObj _ => let* _ := to_string v in Ok PrimFloat.nan
  end.

(** [w > 0] *)
Definition gt0 (w : value) : result bool :=
  let* n := to_number w in Ok (PrimFloat.ltb PrimFloat.zero n).

(** [v.length > 0] for a [v] that is neither [null] nor [undefined]: an
    array and a string have a length; an object has one if it carries a
    field of that name. *)
Definition length_gt0 (v : value) : result bool :=
  match v with
  | VArr items => Ok (match items with [] => false | _ :: _ => true end)
  | VStr s => Ok (Text.nonempty s)
  | VObj fields => gt0 (lookup "length" fields)
  | _ => Ok false
  end.

(** [v[v.length - 1]] *)
Definition last_entry (v : value) : result value :=
  match v with
  | VArr items => Ok (List.last items VUndef)
  | VStr s => Ok (last_char s)
  | VObj fields =>
      let* n := to_number (lookup "length" fields) in
      Ok (lookup (NumberToString E (PrimFloat.sub n PrimFloat.one)) fields)
  | _ => Ok VUndef
  end.

End Engine.

(** *** An engine for the examples *)

Definition digit_of (c : ascii) : option Z :=
  let n := nat_of_ascii c in
  if (Nat.leb 48 n && Nat.leb n 57)%bool then Some (Z.of_nat (n - 48)) else None.

Fixpoint digits_value (acc : Z) (s : string) : option Z :=
  match s with
  | EmptyString => Some acc
  | String c rest =>
      match digit_of c with
      | Some d => digits_value (10 * acc + d) rest
      | None => None
      end
  end.

(** The double of an integer that a double holds exactly. *)
Definition number_of (z : Z) : float :=
  if z <? 0 then PrimFloat.opp (PrimFloat.of_uint63 (Uint63.of_Z (- z)))
  else PrimFloat.of_uint63 (Uint63.of_Z z).

(** The integer a double is, if it is one. *)
Definition integer_of (n : float) : option Z :=
  match Prim2SF n with
  | SpecFloat.S754_zero _ => Some 0
  | SpecFloat.S754_finite negative m e =>
      let magnitude :=
        if 0 <=? e then Some (Z.pos m * 2 ^ e)
        else if Z.pos m mod 2 ^ (- e) =? 0 then Some (Z.pos m / 2 ^ (- e))
        else None in
      option_map (fun z => if negative then - z else z) magnitude
  | _ => None
  end.

(** A reader of signed decimal integer literals, [StringToNumber] on the
    strings that spell an integer a double holds exactly; every other string
    reads as [NaN] here. *)
Definition decimal_literal (s : string) : float :=
  let read (digits : string) :=
    match digits_value 0 digits with
    | Some z => if z <? 2 ^ 53 then Some z else None
    | None => None
    end in
  match s with
  | EmptyString => PrimFloat.zero
  | String c rest =>
      if Ascii.eqb c "-" then
        match rest with
        | EmptyString => PrimFloat.nan
        | _ => match read rest with
               | Some z => number_of (- z)
               | None => PrimFloat.nan
               end
        end
      else match read s with
           | Some z => number_of z
           | None => PrimFloat.nan
           end
  end.

(** [Number::toString] on the integers below 2^53 in size, which it prints
    in decimal digits; every other number has the empty text here. *)
Definition integer_text (n : float) : string :=
  match integer_of n with
  | Some z => if Z.abs z <? 2 ^ 53 then Text.decimal z else ""
  | None => ""
  end.

(** The engine of the examples: it agrees with Node's on the integers
    below 2^53 in size and on their decimal spellings, the spelling [-0]
    apart, which it reads as zero without the sign. *)
Definition sample_engine : engine := mkEngine decimal_literal integer_text.

End Js.


(** Sequencing of computations that may throw. *)
Notation "'let*' x ':=' e 'in' k" :=
  (match e with Js.Ok x => k | Js.Throw err => Js.Throw err end)
  (at level 10, x name, e at level 100, k at level 200, only parsing).

(** ** URLs *)

Module Url.

(** [split_at c s]: the text before the first [c] of [s], and the text from
    that [c] on ([None] when [s] has no [c]). *)
Fixpoint split_at (c : ascii) (s : string) : string * option string :=
  match s with
  | EmptyString => ("", None)
  | String a rest =>
      if Ascii.eqb a c then ("", Some rest)
      else let '(before, after) := split_at c rest in (String a before, after)
  end.

Fixpoint strip_prefix (p s : string) : option string :=
  match p, s with
  | EmptyString, _ => Some s
  | String a p', String b s' => if Ascii.eqb a b then strip_prefix p' s' else None
  | String _ _, EmptyString => None
  end.

Record url : Type := mkUrl { scheme : string; host : string; port : Z; path : string }.

Definition default_port (scheme : string) : Z :=
  if String.eqb scheme "https" then 443 else 80.

(** An absolute [http] or [https] URL: the authority runs up to the first
    [/]; a port follows the host after [:], and the scheme's default port
    stands in when the URL names none. *)
Definition parse (s : string) : option url :=
  let with_scheme (sch rest : string) :=
    let '(authority, after) := split_at "/" rest in
    let pth := match after with Some p => "/" ++ p | None => "/" end in
    let '(h, prt) := split_at ":" authority in
    match prt with
    | None => Some (mkUrl sch h (default_port sch) pth)
    | Some digits =>
        match digits with
        | EmptyString => Some (mkUrl sch h (default_port sch) pth)
        | _ => match Js.digits_value 0 digits with
               | Some n => Some (mkUrl sch h n pth)
               | None => None
               end
        end
    end in
  match strip_prefix "http://" s with
  | Some rest => with_scheme "http" rest
  | None =>
      match strip_prefix "https://" s with
      | Some rest => with_scheme "https" rest
      | None => None
      end
  end.

End Url.

(** ** The Express server *)

Module Server.
Import Js.

(** What [fetch] resolves to: the [ok] flag and the two readers of the body. *)
Record response : Type := mkResponse {
  ok : bool;
  text : result string;
  json : result value
}.

(** A row of [SELECT * FROM users]. *)
Record user_row : Type := mkUser {
  user_id : value;
  user_username : value;
  user_password_hash : value
}.

(** What the password hashing library resolves to.  It rejects with a plain
    [Error]: a message and no [code]. *)
Inductive outcome (A : Type) : Type :=
| Done (a : A)
| Rejected (msg : string).
Arguments Done {A} a.
Arguments Rejected {A} msg.

Definition settle {A : Type} (o : outcome A) : result A :=
  match o with
  | Done a => Ok a
  | Rejected msg => Throw (mkError msg None)
  end.

(** The services the handlers call: the clock, the network, the database
    and the password hashing library. *)
Record world : Type := mkWorld {
  now : string;                                                (* new Date().toISOString() *)
  fetch : string -> string -> option string -> result response; (* method, url, body *)
  select_users : value -> result (list user_row);
  insert_user : value -> string -> result (value * value);     (* RETURNING id, username *)
  genSalt : Z -> outcome string;
  hash : value -> string -> outcome string;
  compare : value -> value -> outcome bool
}.

(** The outbound calls a handler makes, in order. *)
Inductive call : Type :=
| HttpCall (method url : string) (body : option string)
| DbQuery (sql : string) (params : list value).

(** What [res.status(s).json(b)] sends. *)
Record http_response : Type := respond { status : Z; body : value }.

(** A handler step: it extends the log of calls and returns or throws. *)
Definition M (A : Type) : Type := list call -> list call * result A.

Definition ret {A : Type} (a : A) : M A := fun log => (log, Ok a).
Definition throw {A : Type} (e : error) : M A := fun log => (log, Throw e).
Definition lift {A : Type} (r : result A) : M A := fun log => (log, r).
Definition bind {A B : Type} (m : M A) (k : A -> M B) : M B :=
  fun log => match m log with
             | (log', Ok a) => k a log'
             | (log', Throw e) => (log', Throw e)
             end.
(** [try { m } catch (err) { handler err }] *)
Definition try_catch {A : Type} (m : M A) (handler : error -> M A) : M A :=
  fun log => match m log with
             | (log', Ok a) => (log', Ok a)
             | (log', Throw e) => handler e log'
             end.

Notation "x <- m ;; k" := (bind m (fun x => k))
  (at level 100, m at next level, right associativity, only parsing).
Notation "m ;;; k" := (bind m (fun _ => k))
  (at level 100, right associativity, only parsing).

(** A handler run on its own: the calls it made and how it ended. *)
Definition run {A : Type} (m : M A) : list call * result A := m [].

Definition langgraphUrl : string := "http://10.0.3.4:2024/process_emergency_event".
Definition healthUrl : string := "http://10.0.3.4/system_health".

Definition json_of (o : option string) : value :=
  match o with Some s => VStr s | None => VUndef end.

Section Handlers.

Variable E : engine.
Variable w : world.

(** [await fetch(url, { method, headers, body })]; the headers are the
    constant content type and are left out of the log. *)
Definition http_fetch (method url : string) (body : option string) : M response :=
  fun log => (push log (HttpCall method url body), fetch w method url body).

Definition pool_query_select (username : value) : M (list user_row) :=
  fun log =>
    (push log (DbQuery "SELECT * FROM users WHERE username = $1" [username]),
     select_users w username).

Definition pool_query_insert (username : value) (passwordHash : string)
  : M (value * value) :=
  fun log =>
    (push log
       (DbQuery "INSERT INTO users (username, password_hash) VALUES ($1, $2) RETURNING id, username"
          [username; VStr passwordHash]),
     insert_user w username passwordHash).

(** *** [/api/register] *)

Definition code_is (c : string) (err : error) : bool :=
  match code err with Some c' => String.eqb c' c | None => false end.

Definition register (req_body : list (string * value)) : M http_response :=
  let username := field req_body "username" in
  let password := field req_body "password" in
  if negb (truthy username) || negb (truthy password) then
    ret (respond 400 (VObj [("message", VStr "用户名和密码不能为空")]))
  else
    try_catch
      (salt <- lift (settle (genSalt w 10)) ;;
       passwordHash <- lift (settle (hash w password salt)) ;;
       newUser <- pool_query_insert username passwordHash ;;
       ret (respond 201
              (VObj [("message", VStr "注册成功");
                     ("user", VObj [("id", fst newUser); ("username", snd newUser)])])))
      (fun err =>
         if code_is "23505" err then
           ret (respond 409 (VObj [("message", VStr "注册失败：用户名已存在")]))
         else
           ret (respond 500 (VObj [("message", VStr "服务器错误")]))).

(** *** [/api/login] *)

Definition login (req_body : list (string * value)) : M http_response :=
  let username := field req_body "username" in
  let password := field req_body "password" in
  if negb (truthy username) || negb (truthy password) then
    ret (respond 400 (VObj [("message", VStr "用户名和密码不能为空")]))
  else
    try_catch
      (userResult <- pool_query_select username ;;
       match userResult with
       | [] => ret (respond 401 (VObj [("message", VStr "登录失败：用户名或密码错误")]))
       | user :: _ =>
           isMatch <- lift (settle (compare w password (user_password_hash user))) ;;
           if negb isMatch then
             ret (respond 401 (VObj [("message", VStr "登录失败：用户名或密码错误")]))
           else
             ret (respond 200
                    (VObj [("message", VStr "登录成功");
                           ("user", VObj [("id", user_id user);
                                          ("username", user_username user)])]))
       end)
      (fun err => ret (respond 500 (VObj [("message", VStr "服务器错误")]))).

(** *** [/api/chat] *)

(** [l && l.length > 0] *)
Definition listed (l : value) : result bool :=
  if truthy l then length_gt0 E l else Ok false.

(** The object sent to the core as [input_data]. *)
Definition build_input_data (question context : value) : result value :=
  let* region := get context "region" in
  let* model := get context "model" in
  let* model_info :=
    (if truthy model then
       let* name := get model "name" in
       let* type := get model "type" in
       Ok (VObj [("name", name); ("type", or_else type (VStr "unknown"))])
     else Ok VNull) in
  let* datasets := get context "datasets" in
  let* some_datasets := listed datasets in
  let* datasets :=
    (if some_datasets then
       let* entries :=
         array_map "context.datasets" datasets
           (fun d => let* name := get d "name" in
                     let* source := get d "source" in
                     Ok (VObj [("name", name); ("source", source)])) in
       Ok (VArr entries)
     else Ok (VArr [])) in
  Ok (VObj [("user_question", question);
            ("region", or_else region (VStr "未指定"));
            ("model_info", model_info);
            ("datasets", datasets);
            ("emergency_type", VStr "general_inquiry");
            ("severity_level", VStr "low");
            ("timestamp", VStr (now w))]).

(** [`- ${item[first] || item.description || JSON.stringify(item)}`] *)
Definition bullet (first : string) (item : value) : result string :=
  let* a := get item first in
  let* shown :=
    (if truthy a then Ok a
     else let* b := get item "description" in
          if truthy b then Ok b else Ok (json_of (stringify E item))) in
  let* text := to_string E shown in
  Ok ("- " ++ text).

Definition fallback_reply (question : value) : result string :=
  let* asked := to_string E question in
  Ok ("基于您的问题" ++ Text.dquote ++ asked ++ Text.dquote
      ++ "，我已经通过应急管理系统进行了分析。系统返回了详细的处理结果，包含了多个方面的信息。如需要更具体的分析，请提供更多背景信息。").

Definition no_report_reply : string :=
  "抱歉，应急管理系统处理您的请求时出现了问题。请稍后重试或联系系统管理员。".

(** Step 3 of the handler: the reply read off the core's result. *)
Definition extract_reply (question langgraphResult : value) : result string :=
  let* final_report := get langgraphResult "final_report" in
  if truthy final_report then
    let report := final_report in
    let replyParts : list string := [] in
    let* alerts := get report "alerts" in
    let* some_alerts := listed alerts in
    let* replyParts :=
      (if some_alerts then
         let* lines := array_map "report.alerts" alerts (bullet "message") in
         Ok (push replyParts ("**警报信息:**" ++ Text.nl ++ Text.join Text.nl lines))
       else Ok replyParts) in
    let* recommendations := get report "recommendations" in
    let* some_recommendations := listed recommendations in
    let* replyParts :=
      (if some_recommendations then
         let* lines := array_map "report.recommendations" recommendations (bullet "action") in
         Ok (push replyParts ("**建议措施:**" ++ Text.nl ++ Text.join Text.nl lines))
       else Ok replyParts) in
    let* processing_log := get report "processing_log" in
    let* some_log := listed processing_log in
    let* replyParts :=
      (if some_log then
         let* lastLog := last_entry E processing_log in
         let* msg := get lastLog "message" in
         if truthy msg
         then let* text := to_string E msg in
              Ok (push replyParts ("**分析结果:** " ++ text))
         else Ok replyParts
       else Ok replyParts) in
    let* summary := get report "summary" in
    let* replyParts :=
      (if truthy summary
       then let* text := to_string E summary in
            Ok (push replyParts ("**总结:** " ++ text))
       else Ok replyParts) in
    if Nat.eqb (length replyParts) 0
    then fallback_reply question
    else Ok (Text.join (Text.nl ++ Text.nl) replyParts)
  else Ok no_report_reply.

(** [req_body] holds the fields of [req.body], which [bodyParser.json()]
    always makes an object. *)
Definition chat (req_body : list (string * value)) : M http_response :=
  let question := field req_body "question" in
  let context := field req_body "context" in
  if negb (truthy question) then
    ret (respond 400 (VObj [("message", VStr "问题内容不能为空")]))
  else
    try_catch
      (input_data <- lift (build_input_data question context) ;;
       langgraphResponse <-
         http_fetch "POST" langgraphUrl
           (Some (stringify_text E (VObj [("input_data", input_data)]))) ;;
       (if negb (ok langgraphResponse) then
          errorText <- lift (text langgraphResponse) ;;
          throw (mkError ("LangGraph服务调用失败: " ++ errorText) None)
        else ret tt) ;;;
       langgraphResult <- lift (json langgraphResponse) ;;
       aiReply <- lift (extract_reply question langgraphResult) ;;
       ret (respond 200 (VObj [("reply", VStr aiReply)])))
      (fun err =>
         ret (respond 500
                (VObj [("message",
                        VStr ("与应急管理系统通信时发生错误: " ++ message err))]))).

(** *** [/api/langgraph/health] *)

Definition health : M http_response :=
  try_catch
    (healthResponse <- http_fetch "GET" healthUrl None ;;
     (if negb (ok healthResponse) then
        errorText <- lift (text healthResponse) ;;
        throw (mkError ("Health check failed: " ++ errorText) None)
      else ret tt) ;;;
     healthResult <- lift (json healthResponse) ;;
     ret (respond 200 (VObj [("success", VBool true);
                             ("langgraph_status", healthResult)])))
    (fun err =>
       ret (respond 500
              (VObj [("success", VBool false);
                     ("message", VStr ("LangGraph健康检查失败: " ++ message err));
                     ("langgraph_status", VNull)]))).

End Handlers.

End Server.


(** ** The chat panel *)

Module Panel.
Import Js.

Record msg : Type := mkMsg { sender : string; text : value }.

(** The component's [data()]. *)
Record data : Type := mkData {
  userInput : string;
  isTyping : bool;
  isCheckingHealth : bool;
  messages : list msg
}.

Definition greeting : string :=
  "您好！我是智枢AI分析师。您可以向我提问关于当前灾害情况、数据源或模型分析的任何问题。".

Definition initial : data := mkData "" false false [mkMsg "ai" (VStr greeting)].

Definition set_userInput (s : string) (d : data) : data :=
  mkData s (isTyping d) (isCheckingHealth d) (messages d).
Definition set_isTyping (b : bool) (d : data) : data :=
  mkData (userInput d) b (isCheckingHealth d) (messages d).
Definition push_message (m : msg) (d : data) : data :=
  mkData (userInput d) (isTyping d) (isCheckingHealth d) (push (messages d) m).

Section Component.

Variable E : engine.
(** [String.prototype.trim] is the engine's. *)
Variable trim : string -> string.
(** The browser's [fetch]: method, url, body. *)
Variable fetch : string -> string -> option string -> result Server.response.
(** The props. *)
Variables selectedSubModel selectedRegion drivingDatasets : value.

(** The [try] block of [sendMessage] up to the reply it shows: what
    [data.reply] is, or what it throws. *)
Definition ask (userMessage : string) : result value :=
  let* datasets :=
    array_map "this.drivingDatasets" drivingDatasets
      (fun d => let* name := get d "name" in
                let* source := get d "source" in
                Ok (VObj [("name", name); ("source", source)])) in
  let requestPayload :=
    VObj [("question", VStr userMessage);
          ("context", VObj [("region", selectedRegion);
                            ("model", selectedSubModel);
                            ("datasets", VArr datasets)])] in
  let* response := fetch "POST" "/api/chat" (Some (stringify_text E requestPayload)) in
  if negb (Server.ok response) then
    let* errorData := Server.json response in
    let* msg := get errorData "message" in
    let* text := to_string E (or_else msg (VStr "与AI服务通信失败")) in
    Throw (mkError text None)
  else
    let* data := Server.json response in
    get data "reply".

(** [sendMessage], with its awaits run to completion; [scrollToBottom]
    touches the page only. *)
Definition sendMessage (this : data) : data :=
  let userMessage := trim (userInput this) in
  if negb (Text.nonempty userMessage) || isTyping this then this
  else
    let this := push_message (mkMsg "user" (VStr userMessage)) this in
    let this := set_userInput "" this in
    let this := set_isTyping true this in
    let this :=
      match ask userMessage with
      | Ok reply => push_message (mkMsg "ai" reply) this
      | Throw error =>
          push_message
            (mkMsg "ai"
               (VStr ("抱歉，我遇到了一些麻烦，暂时无法回答。错误信息: " ++ message error)))
            this
      end in
    set_isTyping false this.

End Component.

(** The text of the one AI message a call that passes the guard appends. *)
Definition shown (asked : result value) : value :=
  match asked with
  | Ok reply => reply
  | Throw error =>
      VStr ("抱歉，我遇到了一些麻烦，暂时无法回答。错误信息: " ++ message error)
  end.

(** A [trim] for text whose white space is ASCII. *)
Definition is_space (c : ascii) : bool :=
  let n := nat_of_ascii c in
  (Nat.eqb n 32 || (Nat.leb 9 n && Nat.leb n 13))%bool.

Fixpoint trim_start (s : string) : string :=
  match s with
  | EmptyString => ""
  | String c rest => if is_space c then trim_start rest else s
  end.

Definition reverse (s : string) : string :=
  string_of_list_ascii (rev (list_ascii_of_string s)).

Definition trim_ascii (s : string) : string :=
  reverse (trim_start (reverse (trim_start s))).

End Panel.

(** ** Parallel invocation on the model gateway *)

Module Gateway.

Section InvokeMany.

Context {Request Result : Type}.
(** The result of one invocation, failure included: [invoke] never raises. *)
Variable invoke : Request -> Result.

(** Modelled from the spec: the state of one [invoke_many] call; the
    function is not among the sources.  All requests are dispatched at once,
    each bound to the slot of its position; the invocations then complete one
    at a time, in any order, and a completion stores its result in its own
    slot; the call returns when no invocation is in flight. *)
Record state : Type := mkState {
  in_flight : list nat;
  slots : list (option Result)
}.

(** Modelled from the spec: [invoke_many] dispatches all requests
    concurrently, so every position is in flight before any completes. *)
Definition dispatch (requests : list Request) : state :=
  mkState (seq 0 (length requests)) (replicate (length requests) None).

(** Modelled from the spec: the invocation at position [i] of
    [invoke_many] completes. *)
Definition complete (requests : list Request) (i : nat) (st : state) : state :=
  match requests !! i with
  | Some rq =>
      mkState (filter (fun j => j ≠ i) (in_flight st))
              (<[i := Some (invoke rq)]> (slots st))
  | None => st
  end.

(** One step of the scheduler: some invocation that is in flight completes. *)
Inductive step (requests : list Request) : state -> state -> Prop :=
| step_complete (i : nat) (st : state) :
    i ∈ in_flight st -> step requests st (complete requests i st).

Inductive steps (requests : list Request) : state -> state -> Prop :=
| steps_refl st : steps requests st st
| steps_step st1 st2 st3 :
    step requests st1 st2 -> steps requests st2 st3 -> steps requests st1 st3.

(** What holds of every state the scheduler reaches: no invocation is in
    flight twice, and the slot of a position holds the result of its own
    request exactly when that invocation is no longer in flight. *)
Definition consistent (requests : list Request) (st : state) : Prop :=
  length (slots st) = length requests
  /\ NoDup (in_flight st)
  /\ (forall i, i ∈ in_flight st -> (i < length requests)%nat)
  /\ (forall i rq, requests !! i = Some rq ->
                   slots st !! i
                   = Some (if decide (i ∈ in_flight st) then None else Some (invoke rq))).

(** Modelled from the spec: the fan-in of [invoke_many], the results once
    every slot is filled. *)
Definition collect (st : state) : option (list Result) :=
  match in_flight st with
  | [] => mapM id (slots st)
  | _ :: _ => None
  end.

(** Modelled from the spec: [invoke_many] under a given order of
    completion; the function is not among the sources. *)
Definition invoke_many (requests : list Request) (completion : list nat)
  : option (list Result) :=
  collect (foldl (fun st i => complete requests i st) (dispatch requests) completion).

End InvokeMany.

End Gateway.


(** ** The handlers' contracts

    The conditions under which no step of a handler throws, and the
    declarative reading of the request and of the chat reply. *)

Module Contract.
Import Js Server.

Definition nullish (v : value) : bool :=
  match v with VUndef | VNull => true | _ => false end.

(** The field [p] of an object; [undefined] on anything else. *)
Definition prop (v : value) (p : string) : value :=
  match v with VObj fields => lookup p fields | _ => VUndef end.

Definition items_of (v : value) : list value :=
  match v with VArr items => items | _ => [] end.

Definition throws {A : Type} (r : result A) : bool :=
  match r with Ok _ => false | Throw _ => true end.

(** A value that has a text: it is not an object with a [toString] field of
    its own, nor an array that holds one. *)
Fixpoint printable (v : value) : bool :=
  match v with
  | VObj fields => negb (has_own "toString" fields)
  | VArr items => forallb printable items
  | _ => true
  end.

Section Contracts.

Variable E : engine.

(** The text of a printable value. *)
Fixpoint text_of (v : value) : string :=
  match v with
  | VUndef => "undefined"
  | VNull => "null"
  | VBool true => "true"
  | VBool false => "false"
  | VNum n => NumberToString E n
  | VStr s => s
  | VArr items =>
      Text.join ","
        (map (fun x => match x with
                       | VUndef | VNull => ""
                       | _ => text_of x
                       end) items)
  | VObj _ => "[object Object]"
  end.

(** The text an array entry adds to the text of its array. *)
Definition entry_text (x : value) : result string :=
  match x with VUndef | VNull => Ok "" | _ => to_string E x end.

(** [l] counts as a non-empty list for the handler. *)
Definition is_listed (l : value) : bool :=
  match listed E l with Ok some => some | Throw _ => false end.

(** A list the handler can map over: its length can be tested, and it is
    absent, empty, or an array all of whose entries are [good]. *)
Definition entries_ok (good : value -> bool) (l : value) : bool :=
  match listed E l with
  | Throw _ => false
  | Ok false => true
  | Ok true =>
      match l with
      | VArr items => forallb good items
      | _ => false
      end
  end.

Definition not_null (v : value) : bool := negb (nullish v).

(** A context from which [input_data] can be built. *)
Definition context_usable (context : value) : bool :=
  not_null context && entries_ok not_null (prop context "datasets").

(** *** The reply, section by section *)

(** What a bullet shows of an entry. *)
Definition shown_of (first : string) (item : value) : value :=
  or_else (prop item first)
    (or_else (prop item "description") (json_of (stringify E item))).

Definition bullet_line (first : string) (item : value) : string :=
  "- " ++ text_of (shown_of first item).

(** An entry that can be shown: not [null], and what is shown of it has a
    text. *)
Definition bullet_ok (first : string) (item : value) : bool :=
  not_null item && printable (shown_of first item).

Definition last_of (log : value) : value :=
  match last_entry E log with Ok lastLog => lastLog | Throw _ => VUndef end.

(** The last entry of the log can be read: it is not [null], and its
    message, if it has one, has a text. *)
Definition last_log_ok (log : value) : bool :=
  match listed E log with
  | Throw _ => false
  | Ok false => true
  | Ok true =>
      match last_entry E log with
      | Throw _ => false
      | Ok lastLog =>
          not_null lastLog
          && (if truthy (prop lastLog "message")
              then printable (prop lastLog "message")
              else true)
      end
  end.

Definition summary_ok (report : value) : bool :=
  if truthy (prop report "summary") then printable (prop report "summary") else true.

Definition report_readable (report : value) : bool :=
  entries_ok (bullet_ok "message") (prop report "alerts")
  && entries_ok (bullet_ok "action") (prop report "recommendations")
  && last_log_ok (prop report "processing_log")
  && summary_ok report.

Definition list_section (title first : string) (l : value) : option string :=
  if is_listed l
  then Some (title ++ Text.nl ++ Text.join Text.nl (map (bullet_line first) (items_of l)))
  else None.

Definition alerts_section (report : value) : option string :=
  list_section "**警报信息:**" "message" (prop report "alerts").

Definition recommendations_section (report : value) : option string :=
  list_section "**建议措施:**" "action" (prop report "recommendations").

Definition log_section (report : value) : option string :=
  let log := prop report "processing_log" in
  if is_listed log then
    let msg := prop (last_of log) "message" in
    if truthy msg then Some ("**分析结果:** " ++ text_of msg) else None
  else None.

Definition summary_section (report : value) : option string :=
  let summary := prop report "summary" in
  if truthy summary then Some ("**总结:** " ++ text_of summary) else None.

Definition sections (report : value) : list (option string) :=
  [alerts_section report; recommendations_section report;
   log_section report; summary_section report].

(** The fallback sentence, which quotes the question. *)
Definition fallback_text (question : value) : string :=
  "基于您的问题" ++ Text.dquote ++ text_of question ++ Text.dquote
    ++ "，我已经通过应急管理系统进行了分析。系统返回了详细的处理结果，包含了多个方面的信息。如需要更具体的分析，请提供更多背景信息。".

(** The sections that are there, in their order, a blank line between
    them; the fallback sentence when there is none. *)
Definition compose (question : value) (secs : list (option string)) : string :=
  match omap id secs with
  | [] => fallback_text question
  | parts => Text.join (Text.nl ++ Text.nl) parts
  end.

(** A report from which the reply to [question] can be read: its lists
    and its texts can, and the question has a text if the fallback sentence
    is to quote it. *)
Definition reply_readable (question report : value) : bool :=
  report_readable report
  && (match omap id (sections report) with
      | [] => printable question
      | _ :: _ => true
      end).

(** A result of the core from which the reply can be read. *)
Definition readable (question langgraphResult : value) : bool :=
  not_null langgraphResult
  && (if truthy (prop langgraphResult "final_report")
      then reply_readable question (prop langgraphResult "final_report")
      else true).

(** *** The request, field by field *)

Definition model_info_of (context : value) : value :=
  let model := prop context "model" in
  if truthy model
  then VObj [("name", prop model "name");
             ("type", or_else (prop model "type") (VStr "unknown"))]
  else VNull.

Definition dataset_of (d : value) : value :=
  VObj [("name", prop d "name"); ("source", prop d "source")].

Definition datasets_of (context : value) : list value :=
  let datasets := prop context "datasets" in
  if is_listed datasets then map dataset_of (items_of datasets) else [].

(** One list step of [extract_reply]. *)
Definition list_step (expr title first : string) (l : value) (replyParts : list string)
  : result (list string) :=
  let* some := listed E l in
  if some then
    let* lines := array_map expr l (bullet E first) in
    Ok (push replyParts (title ++ Text.nl ++ Text.join Text.nl lines))
  else Ok replyParts.

(** The step of [extract_reply] on the processing log. *)
Definition log_step (log : value) (replyParts : list string) : result (list string) :=
  let* some := listed E log in
  if some then
    let* lastLog := last_entry E log in
    let* msg := get lastLog "message" in
    if truthy msg
    then let* text := to_string E msg in
         Ok (push replyParts ("**分析结果:** " ++ text))
    else Ok replyParts
  else Ok replyParts.

(** The step of [extract_reply] on the summary. *)
Definition summary_step (summary : value) (replyParts : list string)
  : result (list string) :=
  if truthy summary
  then let* text := to_string E summary in
       Ok (push replyParts ("**总结:** " ++ text))
  else Ok replyParts.

(** *** The core's answer *)

Definition payload (input_data : value) : option string :=
  Some (stringify_text E (VObj [("input_data", input_data)])).

End Contracts.

Definition failure_body (err : error) : value :=
  VObj [("message", VStr ("与应急管理系统通信时发生错误: " ++ message err))].

(** The call failed, returned non-ok, or its body is not JSON. *)
Definition upstream_failed (answer : result response) : bool :=
  match answer with
  | Throw _ => true
  | Ok r => negb (ok r) || throws (json r)
  end.

(** The JSON body of an ok answer. *)
Definition ok_json (answer : result response) : option value :=
  match answer with
  | Ok r => if ok r then match json r with Ok v => Some v | Throw _ => None end else None
  | Throw _ => None
  end.

(** What the handler makes of the core's answer, after the call. *)
Definition after_call (E : engine) (question : value)
    (answer : result response) : http_response :=
  let outcome :=
    let* r := answer in
    let* _ := (if negb (ok r)
               then let* errorText := text r in
                    Throw (mkError ("LangGraph服务调用失败: " ++ errorText) None)
               else Ok tt) in
    let* langgraphResult := json r in
    extract_reply E question langgraphResult in
  match outcome with
  | Ok aiReply => respond 200 (VObj [("reply", VStr aiReply)])
  | Throw err => respond 500 (failure_body err)
  end.

(** *** The account handlers *)

Definition login_failed_body : value :=
  VObj [("message", VStr "登录失败：用户名或密码错误")].

(** The [INSERT] the register handler gets to, and how it ends; [None]
    when the handler ends before it. *)
Definition insert_attempt (w : world) (req_body : list (string * value))
  : option (result (value * value)) :=
  let username := field req_body "username" in
  let password := field req_body "password" in
  if truthy username && truthy password then
    match genSalt w 10 with
    | Done salt =>
        match hash w password salt with
        | Done passwordHash => Some (insert_user w username passwordHash)
        | Rejected _ => None
        end
    | Rejected _ => None
    end
  else None.

(** *** Sample services *)

(** A core that answers every call with the ok JSON body [v]. *)
Definition answering (v : value) : string -> string -> option string -> result response :=
  fun _ _ _ => Ok (mkResponse true (Ok (stringify_text sample_engine v)) (Ok v)).

Definition sample_user : user_row :=
  mkUser (VNum 7) (VStr "lin") (VStr "$2a$10$N9qo8uLOickgx2ZMRZoMye").

(** A database that holds [sample_user] alone, and a hashing library for
    which that user's password is the word tiger. *)
Definition account_world : world :=
  mkWorld "2025-06-01T08:00:00.000Z" (answering VNull)
    (fun username =>
       match username with
       | VStr "lin" => Ok [sample_user]
       | _ => Ok []
       end)
    (fun username _ =>
       match username with
       | VStr "lin" =>
           Throw (mkError "duplicate key value violates unique constraint" (Some "23505"))
       | _ => Ok (VNum 8, username)
       end)
    (fun _ => Done "$2a$10$N9qo8uLOickgx2ZMRZoMye")
    (fun _ salt => Done (salt ++ "IjZAgcfl7p92ldGxad68LJZdL17lhWy"))
    (fun password _ =>
       match password with
       | VStr "tiger" => Done true
       | VStr _ => Done false
       | _ => Rejected "Illegal arguments: number, string"
       end).

(** Services around a core that answers [v], at a given reading of the
    clock. *)
Definition sample_world (clock : string) (v : value) : world :=
  mkWorld clock (answering v)
    (fun _ => Ok [])
    (fun username _ => Ok (VNum 1, username))
    (fun _ => Done "$2a$10$salt")
    (fun _ _ => Done "$2a$10$hash")
    (fun _ _ => Done true).

End Contract.


(** ** Bodies on the wire

    What the receiver of a JSON body holds: [JSON.parse (JSON.stringify v)]. *)

Module Wire.
Import Js Server.

(** A field whose value is [undefined] is gone, an [undefined] array entry
    has become [null], and so has a number that is not finite; a finite
    number reads back as itself, zero without its sign; the keys of an
    object are taken to be distinct, as those of a JavaScript object are. *)
Fixpoint wire (v : value) : value :=
  match v with
  | VNum n =>
      if PrimFloat.is_finite n
      then VNum (if PrimFloat.eqb n PrimFloat.zero then PrimFloat.zero else n)
      else VNull
  | VArr items =>
      VArr (map (fun x => match x with VUndef => VNull | _ => wire x end) items)
  | VObj fields =>
      VObj ((fix sent (fs : list (string * value)) : list (string * value) :=
               match fs with
               | [] => []
               | (k, x) :: rest =>
                   match x with
                   | VUndef => sent rest
                   | _ => (k, wire x) :: sent rest
                   end
               end) fields)
  | _ => v
  end.

(** The fields of [req.body] for a request whose body is the text of [v]. *)
Definition fields_of (v : value) : list (string * value) :=
  match wire v with VObj fields => fields | _ => [] end.

(** What the browser's [fetch] resolves to when the server ends the request
    with [res.status(s).json(b)]: [ok] is a status from 200 to 299, and the
    body reads back as [b] went over the wire. *)
Definition express_response (E : engine) (r : http_response) : response :=
  mkResponse ((200 <=? status r) && (status r <=? 299))
             (Ok (stringify_text E (body r)))
             (Ok (wire (body r))).

End Wire.

(** ** The chat panel, continued: the request it sends and the health button *)

Module PanelHealth.
Import Js.

Section Pretty.

Variable E : engine.

(** [JSON.stringify v null 2]: members and entries on lines of their own,
    indented by two spaces a level; [None] is its [undefined] result. *)
Fixpoint stringify_pretty (indent : string) (v : value) : option string :=
  match v with
  | VUndef => None
  | VNull => Some "null"
  | VBool true => Some "true"
  | VBool false => Some "false"
  | VNum n => Some (if PrimFloat.is_finite n then NumberToString E n else "null")
  | VStr s => Some (quote s)
  | VArr items =>
      let stepback := indent in
      let indent := indent ++ "  " in
      match items with
      | [] => Some "[]"
      | _ :: _ =>
          Some ("[" ++ Text.nl ++ indent
                ++ Text.join ("," ++ Text.nl ++ indent)
                     (map (fun x => match stringify_pretty indent x with
                                    | Some s => s
                                    | None => "null"
                                    end) items)
                ++ Text.nl ++ stepback ++ "]")
      end
  | VObj fields =>
      let stepback := indent in
      let indent := indent ++ "  " in
      match (fix members (fs : list (string * value)) : list string :=
               match fs with
               | [] => []
               | (k, x) :: rest =>
                   match stringify_pretty indent x with
                   | Some s => (quote k ++ ": " ++ s) :: members rest
                   | None => members rest
                   end
               end) fields with
      | [] => Some "{}"
      | partial =>
          Some ("{" ++ Text.nl ++ indent
                ++ Text.join ("," ++ Text.nl ++ indent) partial
                ++ Text.nl ++ stepback ++ "}")
      end
  end.

(** [`${JSON.stringify(v, null, 2)}`] *)
Definition pretty_text (v : value) : string :=
  match stringify_pretty "" v with Some s => s | None => "undefined" end.

End Pretty.

Definition set_isCheckingHealth (b : bool) (d : Panel.data) : Panel.data :=
  Panel.mkData (Panel.userInput d) (Panel.isTyping d) b (Panel.messages d).

Definition health_header : string := "**系统状态检查结果:**" ++ Text.nl.

Section Component.

Variable E : engine.
(** The browser's [fetch]: method, url, body. *)
Variable fetch : string -> string -> option string -> result Server.response.
(** The props. *)
Variables selectedSubModel selectedRegion drivingDatasets : value.

(** The [requestPayload] of [sendMessage]. *)
Definition request_payload (userMessage : string) : result value :=
  let* datasets :=
    array_map "this.drivingDatasets" drivingDatasets
      (fun d => let* name := get d "name" in
                let* source := get d "source" in
                Ok (VObj [("name", name); ("source", source)])) in
  Ok (VObj [("question", VStr userMessage);
            ("context", VObj [("region", selectedRegion);
                              ("model", selectedSubModel);
                              ("datasets", VArr datasets)])]).

(** The [try] block of [checkHealth] from the point where [fetch] settles with
    [answer]: the text of the message it pushes, or what it throws. *)
Definition health_text (answer : result Server.response) : result string :=
  let* response := answer in
  let* data := Server.json response in
  let* success := get data "success" in
  if truthy success then
    let* langgraph_status := get data "langgraph_status" in
    Ok (health_header ++ "✅ LangGraph应急管理系统运行正常" ++ Text.nl ++ Text.nl
        ++ "**详细信息:**" ++ Text.nl ++ pretty_text E langgraph_status)
  else
    let* msg := get data "message" in
    let* text := to_string E msg in
    Ok (health_header ++ "❌ LangGraph应急管理系统连接失败" ++ Text.nl ++ Text.nl
        ++ "**错误信息:** " ++ text).

(** The [finally] of [checkHealth] after its [try] and [catch]. *)
Definition health_done (report : result string) (this : Panel.data) : Panel.data :=
  let this :=
    match report with
    | Ok shown => Panel.push_message (Panel.mkMsg "ai" (VStr shown)) this
    | Throw error =>
        Panel.push_message
          (Panel.mkMsg "ai"
             (VStr (health_header ++ "❌ 无法连接到LangGraph应急管理系统" ++ Text.nl ++ Text.nl
                    ++ "**错误信息:** " ++ message error)))
          this
    end in
  set_isCheckingHealth false this.

(** [checkHealth], with its awaits run to completion. *)
Definition checkHealth (this : Panel.data) : Panel.data :=
  let this := set_isCheckingHealth true this in
  health_done (health_text (fetch "GET" "/api/langgraph/health" None)) this.

(** The [try] block of [sendMessage] from the point where [fetch] settles
    with [answer]: what [data.reply] is, or what it throws. *)
Definition reply_of (answer : result Server.response) : result value :=
  let* response := answer in
  if negb (Server.ok response) then
    let* errorData := Server.json response in
    let* msg := get errorData "message" in
    let* text := to_string E (or_else msg (VStr "与AI服务通信失败")) in
    Throw (mkError text None)
  else
    let* data := Server.json response in
    get data "reply".

(** The rest of [sendMessage] once its [try] block has ended in [asked]: the
    push of the analyst's message and the [finally]. *)
Definition send_done (asked : result value) (this : Panel.data) : Panel.data :=
  Panel.set_isTyping false
    (Panel.push_message (Panel.mkMsg "ai" (Panel.shown asked)) this).

End Component.

(** *** The panel in use

    The two methods are asynchronous: each runs up to its [await fetch], and
    the rest runs when the network settles the call, with other presses and
    other settlements in between.  The later [await response.json()] of a
    method is taken together with its [fetch]: between the two the method
    neither reads nor writes the component. *)

(** The panel, the body of the send request awaiting its answer (if one
    is), and the number of health checks awaiting theirs. *)
Record session : Type := mkSession {
  view : Panel.data;
  sending : option string;
  checking : nat
}.

Inductive event : Type :=
| Edit (input : string)                          (* v-model on the input field *)
| PressSend                                      (* sendMessage is called *)
| SendSettles (answer : result Server.response)  (* its fetch settles *)
| PressHealth                                    (* checkHealth is called *)
| HealthSettles (answer : result Server.response).

Section Session.

Variable E : engine.
Variable trim : string -> string.
Variables selectedSubModel selectedRegion drivingDatasets : value.

(** [sendMessage] up to its first [await]: the guard, the user's message,
    and the request; a request that cannot be built throws before any await
    and the call ends at once in its [catch] and [finally]. *)
Definition press_send (s : session) : session :=
  let this := view s in
  let userMessage := trim (Panel.userInput this) in
  if negb (Text.nonempty userMessage) || Panel.isTyping this then s
  else
    let this := Panel.push_message (Panel.mkMsg "user" (VStr userMessage)) this in
    let this := Panel.set_userInput "" this in
    let this := Panel.set_isTyping true this in
    match request_payload selectedSubModel selectedRegion drivingDatasets userMessage with
    | Ok requestPayload =>
        mkSession this (Some (stringify_text E requestPayload)) (checking s)
    | Throw error => mkSession (send_done (Throw error) this) (sending s) (checking s)
    end.

Definition step (s : session) (e : event) : session :=
  match e with
  | Edit input => mkSession (Panel.set_userInput input (view s)) (sending s) (checking s)
  | PressSend => press_send s
  | SendSettles answer =>
      match sending s with
      | Some _ => mkSession (send_done (reply_of E answer) (view s)) None (checking s)
      | None => s
      end
  | PressHealth =>
      mkSession (set_isCheckingHealth true (view s)) (sending s) (Datatypes.S (checking s))
  | HealthSettles answer =>
      match checking s with
      | O => s
      | Datatypes.S n => mkSession (health_done (health_text E answer) (view s)) (sending s) n
      end
  end.

Definition opened : session := mkSession Panel.initial None O.

Definition play (events : list event) : session := fold_left step events opened.

End Session.

Definition is_user (m : Panel.msg) : bool := String.eqb (Panel.sender m) "user".
Definition is_ai (m : Panel.msg) : bool := String.eqb (Panel.sender m) "ai".

(** Every message is the user's or the analyst's, and each of the user's
    is answered by the very next message; when [pending], the last message
    may be the user's and wait for its answer. *)
Fixpoint conversation (pending : bool) (l : list Panel.msg) : bool :=
  match l with
  | [] => true
  | m :: rest =>
      if is_user m then
        match rest with
        | a :: after => is_ai a && conversation pending after
        | [] => pending
        end
      else is_ai m && conversation pending rest
  end.

(** The text of a message is a string that is not empty. *)
Definition has_text (m : Panel.msg) : bool :=
  match Panel.text m with VStr s => Text.nonempty s | _ => false end.

(** The template's [:disabled] of the send button:
    [!userInput.trim() || isTyping]. *)
Definition send_disabled (trim : string -> string) (this : Panel.data) : bool :=
  negb (Text.nonempty (trim (Panel.userInput this))) || Panel.isTyping this.

(** What holds of the panel at every moment. *)
Definition kept (s : session) : Prop :=
  Panel.isTyping (view s)
  = match sending s with Some _ => true | None => false end
  /\ (checking s = O -> Panel.isCheckingHealth (view s) = false)
  /\ (exists rest,
         Panel.messages (view s) = Panel.mkMsg "ai" (VStr Panel.greeting) :: rest)
  /\ conversation (Panel.isTyping (view s))
       (Panel.messages (view s)) = true
  /\ Forall (fun m => is_user m = true -> has_text m = true)
       (Panel.messages (view s)).

End PanelHealth.

Import Js Server Contract.

(** * Properties *)

(** ** Reading values *)

Lemma get_prop (v : value) (p : string) :
  nullish v = false -> get v p = Ok (prop v p).
Proof. destruct v; simpl; intros H; try discriminate; reflexivity. Qed.

Lemma get_nullish (v : value) (p : string) :
  nullish v = true -> exists e, get v p = Throw e.
Proof. destruct v; simpl; intros H; try discriminate; eauto. Qed.

Lemma truthy_not_nullish (v : value) : truthy v = true -> nullish v = false.
Proof. destruct v; simpl; intros H; try discriminate; reflexivity. Qed.

Section MapResult.

Context {A B : Type} (f : A -> result B) (g : A -> B) (good : A -> bool).

Lemma map_result_total (l : list A) :
  (forall x, good x = true -> f x = Ok (g x)) ->
  forallb good l = true -> map_result f l = Ok (map g l).
Proof.
  intros Hf. induction l as [|x l IH]; simpl; [reflexivity|].
  intros H. apply andb_prop in H as [Hx Hrest].
  rewrite (Hf x Hx), (IH Hrest). reflexivity.
Qed.

Lemma map_result_throws (l : list A) :
  (forall x, good x = false -> exists e, f x = Throw e) ->
  forallb good l = false -> exists e, map_result f l = Throw e.
Proof.
  intros Hf. induction l as [|x l IH]; simpl; [discriminate|].
  intros H. apply andb_false_iff in H as [Hx | Hrest].
  - destruct (Hf x Hx) as [e ->]. eauto.
  - destruct (f x); [|eauto]. destruct (IH Hrest) as [e ->]. eauto.
Qed.

End MapResult.

(** ** Texts *)

Section TextFacts.

Variable E : engine.

Lemma to_string_array (items : list value) :
  to_string E (VArr items)
  = let* texts := map_result (entry_text E) items in Ok (Text.join "," texts).
Proof.
  simpl. 
  match goal with |- match ?a with _ => _ end = match ?b with _ => _ end =>
    assert (Heq : a = b); [|rewrite Heq; reflexivity] end.
  induction items as [|x rest IH]; [reflexivity|].
  simpl. rewrite IH. unfold entry_text. reflexivity.
Qed.

(** A printable value has its text. *)
Lemma to_string_printable (v : value) :
  printable v = true -> to_string E v = Ok (text_of E v).
Proof.
  induction v as [| | b | n | s | items IH | fields _] using value_induction;
    try (simpl; intros H; reflexivity).
  - destruct b; reflexivity.
  - intros H. rewrite to_string_array.
    assert (Hall : map_result (entry_text E) items
                   = Ok (map (fun x => match x with
                                       | VUndef | VNull => ""
                                       | _ => text_of E x
                                       end) items)).
    { simpl in H. induction items as [|x rest IHrest]; [reflexivity|].
      simpl in H. apply andb_prop in H as [Hx Hrest].
      inversion IH as [|? ? IHx IHitems]; subst.
      simpl. rewrite (IHrest IHitems Hrest).
      unfold entry_text. destruct x; try reflexivity; rewrite (IHx Hx); reflexivity. }
    rewrite Hall. reflexivity.
  - simpl. intros H. apply negb_true_iff in H. rewrite H. reflexivity.
Qed.

(** A value that is not printable has none: making it a text throws the
    engine's type error. *)
Lemma to_string_unprintable_error (v : value) :
  printable v = false ->
  to_string E v = Throw (TypeError "Cannot convert object to primitive value").
Proof.
  induction v as [| | b | n | s | items IH | fields _] using value_induction;
    try (simpl; intros H; discriminate).
  - intros H. rewrite to_string_array.
    assert (Hall : map_result (entry_text E) items
                   = Throw (TypeError "Cannot convert object to primitive value")).
    { simpl in H. induction items as [|x rest IHrest]; [discriminate|].
      simpl in H. inversion IH as [|? ? IHx IHitems]; subst. simpl.
      destruct (printable x) eqn:Hx.
      - simpl in H. rewrite (IHrest IHitems H).
        destruct (entry_text E x) as [s|e] eqn:Hs; [reflexivity|].
        unfold entry_text in Hs.
        destruct x; try discriminate; rewrite (to_string_printable _ Hx) in Hs;
          discriminate.
      - unfold entry_text. destruct x; try discriminate; rewrite (IHx eq_refl);
          reflexivity. }
    rewrite Hall. reflexivity.
  - simpl. intros H. apply negb_false_iff in H. rewrite H. reflexivity.
Qed.

Lemma to_string_unprintable (v : value) :
  printable v = false -> exists e, to_string E v = Throw e.
Proof. intros H. rewrite (to_string_unprintable_error v H). eauto. Qed.

Lemma or_else_shown (first : string) (item : value) :
  shown_of E first item
  = (if truthy (prop item first) then prop item first
     else if truthy (prop item "description") then prop item "description"
          else json_of (stringify E item)).
Proof. reflexivity. Qed.

Lemma bullet_shown (first : string) (item : value) :
  bullet_ok E first item = true -> bullet E first item = Ok (bullet_line E first item).
Proof.
  unfold bullet_ok, not_null. intros H. apply andb_prop in H as [Hn Hp].
  apply negb_true_iff in Hn.
  unfold bullet, bullet_line. rewrite !(get_prop _ _ Hn).
  assert (Hs : (if truthy (prop item first) then Ok (prop item first)
                else let* b := Ok (prop item "description") in
                     if truthy b then Ok b else Ok (json_of (stringify E item)))
               = Ok (shown_of E first item)).
  { rewrite or_else_shown.
    destruct (truthy (prop item first)); [reflexivity|].
    destruct (truthy (prop item "description")); reflexivity. }
  rewrite Hs, (to_string_printable _ Hp). reflexivity.
Qed.

Lemma bullet_unshown (first : string) (item : value) :
  bullet_ok E first item = false -> exists e, bullet E first item = Throw e.
Proof.
  unfold bullet_ok, not_null. intros H. unfold bullet.
  destruct (nullish item) eqn:Hn.
  { destruct (get_nullish item first Hn) as [e ->]. eauto. }
  simpl in H. rewrite !(get_prop _ _ Hn).
  assert (Hs : (if truthy (prop item first) then Ok (prop item first)
                else let* b := Ok (prop item "description") in
                     if truthy b then Ok b else Ok (json_of (stringify E item)))
               = Ok (shown_of E first item)).
  { rewrite or_else_shown.
    destruct (truthy (prop item first)); [reflexivity|].
    destruct (truthy (prop item "description")); reflexivity. }
  rewrite Hs. destruct (to_string_unprintable _ H) as [e ->]. eauto.
Qed.

Lemma map_bullets_ok (first : string) (items : list value) :
  forallb (bullet_ok E first) items = true ->
  map_result (bullet E first) items = Ok (map (bullet_line E first) items).
Proof. apply map_result_total. apply bullet_shown. Qed.

Lemma map_bullets_bad (first : string) (items : list value) :
  forallb (bullet_ok E first) items = false ->
  exists e, map_result (bullet E first) items = Throw e.
Proof. apply map_result_throws. apply bullet_unshown. Qed.

End TextFacts.

(** ** Reading the report *)

Section ReplyFacts.

Variable E : engine.

Lemma list_step_ok (expr title first : string) (l : value) (parts : list string) :
  entries_ok E (bullet_ok E first) l = true ->
  list_step E expr title first l parts
  = Ok (parts ++ option_list (list_section E title first l))%list.
Proof.
  unfold entries_ok, list_step, list_section, is_listed.
  destruct (listed E l) as [[|]|e] eqn:Hl; try discriminate.
  - destruct l; try discriminate. intros H. simpl array_map.
    rewrite (map_bullets_ok _ _ _ H). reflexivity.
  - intros _. simpl. rewrite app_nil_r. reflexivity.
Qed.

Lemma list_step_throw (expr title first : string) (l : value) (parts : list string) :
  entries_ok E (bullet_ok E first) l = false ->
  exists e, list_step E expr title first l parts = Throw e.
Proof.
  unfold entries_ok, list_step.
  destruct (listed E l) as [[|]|e] eqn:Hl; try discriminate; [|eauto].
  destruct l; intros H; simpl array_map; eauto.
  destruct (map_bullets_bad E first items H) as [e ->]. eauto.
Qed.

Lemma log_step_ok (report : value) (parts : list string) :
  last_log_ok E (prop report "processing_log") = true ->
  log_step E (prop report "processing_log") parts
  = Ok (parts ++ option_list (log_section E report))%list.
Proof.
  unfold last_log_ok, log_step, log_section, is_listed, last_of, not_null.
  cbv zeta.
  destruct (listed E (prop report "processing_log")) as [[|]|e]; try discriminate.
  - destruct (last_entry E (prop report "processing_log")) as [lastLog|e];
      [|discriminate].
    intros H. apply andb_prop in H as [Hn Hp]. apply negb_true_iff in Hn.
    rewrite (get_prop _ _ Hn).
    destruct (truthy (prop lastLog "message")).
    + rewrite (to_string_printable _ _ Hp). reflexivity.
    + simpl. rewrite app_nil_r. reflexivity.
  - intros _. simpl. rewrite app_nil_r. reflexivity.
Qed.

Lemma log_step_throw (log : value) (parts : list string) :
  last_log_ok E log = false -> exists e, log_step E log parts = Throw e.
Proof.
  unfold last_log_ok, log_step, not_null.
  destruct (listed E log) as [[|]|e]; try discriminate; [|eauto].
  destruct (last_entry E log) as [lastLog|e]; [|eauto].
  destruct (nullish lastLog) eqn:Hn.
  { destruct (get_nullish lastLog "message" Hn) as [e ->]. eauto. }
  rewrite (get_prop _ _ Hn). simpl.
  destruct (truthy (prop lastLog "message")); [|discriminate].
  intros H. destruct (to_string_unprintable E _ H) as [e ->]. eauto.
Qed.

Lemma summary_step_ok (report : value) (parts : list string) :
  summary_ok report = true ->
  summary_step E (prop report "summary") parts
  = Ok (parts ++ option_list (summary_section E report))%list.
Proof.
  unfold summary_ok, summary_step, summary_section. cbv zeta.
  destruct (truthy (prop report "summary")).
  - intros H. rewrite (to_string_printable _ _ H). reflexivity.
  - intros _. simpl. rewrite app_nil_r. reflexivity.
Qed.

Lemma summary_step_throw (report : value) (parts : list string) :
  summary_ok report = false ->
  exists e, summary_step E (prop report "summary") parts = Throw e.
Proof.
  unfold summary_ok, summary_step.
  destruct (truthy (prop report "summary")); [|discriminate].
  intros H. destruct (to_string_unprintable E _ H) as [e ->]. eauto.
Qed.

Lemma extract_reply_steps (question v : value) :
  extract_reply E question v
  = (let* report := get v "final_report" in
     if truthy report then
       let* alerts := get report "alerts" in
       let* parts1 := list_step E "report.alerts" "**警报信息:**" "message" alerts [] in
       let* recommendations := get report "recommendations" in
       let* parts2 := list_step E "report.recommendations" "**建议措施:**" "action"
                        recommendations parts1 in
       let* processing_log := get report "processing_log" in
       let* parts3 := log_step E processing_log parts2 in
       let* summary := get report "summary" in
       let* parts4 := summary_step E summary parts3 in
       if Nat.eqb (length parts4) 0
       then fallback_reply E question
       else Ok (Text.join (Text.nl ++ Text.nl) parts4)
     else Ok no_report_reply).
Proof.
  unfold extract_reply, list_step, log_step, summary_step. cbv zeta.
  repeat (reflexivity
          || match goal with
             | |- match ?x with _ => _ end = _ => destruct x
             end).
Qed.

Lemma fallback_reply_ok (question : value) :
  printable question = true -> fallback_reply E question = Ok (fallback_text E question).
Proof.
  intros H. unfold fallback_reply, fallback_text.
  rewrite (to_string_printable _ _ H). reflexivity.
Qed.

Lemma fallback_reply_throw (question : value) :
  printable question = false -> exists e, fallback_reply E question = Throw e.
Proof.
  intros H. unfold fallback_reply.
  destruct (to_string_unprintable E _ H) as [e ->]. eauto.
Qed.

Lemma omap_sections (a b c d : option string) :
  omap id [a; b; c; d]
  = (([] ++ option_list a) ++ option_list b ++ option_list c ++ option_list d)%list.
Proof. destruct a, b, c, d; reflexivity. Qed.

Lemma length_zero {A : Type} (l : list A) :
  Nat.eqb (length l) 0 = match l with [] => true | _ :: _ => false end.
Proof. destruct l; reflexivity. Qed.

(** The steps of a report whose lists and texts can be read. *)
Lemma report_steps (report : value) :
  report_readable E report = true ->
  (let* parts1 := list_step E "report.alerts" "**警报信息:**" "message"
                    (prop report "alerts") [] in
   let* parts2 := list_step E "report.recommendations" "**建议措施:**" "action"
                    (prop report "recommendations") parts1 in
   let* parts3 := log_step E (prop report "processing_log") parts2 in
   summary_step E (prop report "summary") parts3)
  = Ok (omap id (sections E report)).
Proof.
  unfold report_readable. intros Hr.
  apply andb_prop in Hr as [Hr Hsum]. apply andb_prop in Hr as [Hr Hlog].
  apply andb_prop in Hr as [Ha Hrec].
  rewrite (list_step_ok _ _ _ _ _ Ha), (list_step_ok _ _ _ _ _ Hrec).
  rewrite (log_step_ok _ _ Hlog), (summary_step_ok _ _ Hsum).
  unfold sections. rewrite omap_sections.
  unfold alerts_section, recommendations_section.
  rewrite <- !app_assoc. reflexivity.
Qed.

Lemma report_steps_throw (report : value) :
  report_readable E report = false ->
  exists e,
    (let* parts1 := list_step E "report.alerts" "**警报信息:**" "message"
                      (prop report "alerts") [] in
     let* parts2 := list_step E "report.recommendations" "**建议措施:**" "action"
                      (prop report "recommendations") parts1 in
     let* parts3 := log_step E (prop report "processing_log") parts2 in
     summary_step E (prop report "summary") parts3)
    = Throw e.
Proof.
  unfold report_readable. intros Hr.
  destruct (entries_ok E (bullet_ok E "message") (prop report "alerts")) eqn:Ha.
  2:{ destruct (list_step_throw "report.alerts" "**警报信息:**" _ _ [] Ha) as [e ->].
      eauto. }
  rewrite (list_step_ok _ _ _ _ _ Ha).
  destruct (entries_ok E (bullet_ok E "action") (prop report "recommendations")) eqn:Hrec.
  2:{ destruct (list_step_throw "report.recommendations" "**建议措施:**" _ _
                  ([] ++ option_list (list_section E "**警报信息:**" "message"
                                        (prop report "alerts")))%list Hrec) as [e ->].
      eauto. }
  rewrite (list_step_ok _ _ _ _ _ Hrec).
  destruct (last_log_ok E (prop report "processing_log")) eqn:Hlog.
  2:{ match goal with |- context [log_step E _ ?p] =>
        destruct (log_step_throw _ p Hlog) as [e ->] end. eauto. }
  rewrite (log_step_ok _ _ Hlog).
  simpl in Hr.
  match goal with |- context [summary_step E _ ?p] =>
    destruct (summary_step_throw _ p Hr) as [e He] end.
  eauto.
Qed.

Lemma extract_reply_report (question v : value) :
  nullish v = false ->
  truthy (prop v "final_report") = true ->
  extract_reply E question v
  = (let report := prop v "final_report" in
     let* parts :=
       (let* parts1 := list_step E "report.alerts" "**警报信息:**" "message"
                         (prop report "alerts") [] in
        let* parts2 := list_step E "report.recommendations" "**建议措施:**" "action"
                         (prop report "recommendations") parts1 in
        let* parts3 := log_step E (prop report "processing_log") parts2 in
        summary_step E (prop report "summary") parts3) in
     if Nat.eqb (length parts) 0
     then fallback_reply E question
     else Ok (Text.join (Text.nl ++ Text.nl) parts)).
Proof.
  intros Hv Ht. rewrite extract_reply_steps, (get_prop _ _ Hv), Ht. cbv zeta.
  assert (Hn : nullish (prop v "final_report") = false)
    by (apply truthy_not_nullish; exact Ht).
  rewrite !(get_prop _ _ Hn).
  destruct (list_step E "report.alerts" _ _ _ _); [|reflexivity].
  destruct (list_step E "report.recommendations" _ _ _ _); [|reflexivity].
  destruct (log_step E _ _); reflexivity.
Qed.

(** The reply read off a report that can be read. *)
Lemma extract_reply_readable (question v : value) :
  nullish v = false ->
  truthy (prop v "final_report") = true ->
  reply_readable E question (prop v "final_report") = true ->
  extract_reply E question v
  = Ok (compose E question (sections E (prop v "final_report"))).
Proof.
  intros Hv Ht Hr. rewrite (extract_reply_report _ _ Hv Ht). cbv zeta.
  unfold reply_readable in Hr. apply andb_prop in Hr as [Hr Hq].
  rewrite (report_steps _ Hr), length_zero. unfold compose.
  destruct (omap id (sections E (prop v "final_report"))); [|reflexivity].
  apply fallback_reply_ok, Hq.
Qed.

Lemma extract_reply_no_report (question v : value) :
  nullish v = false ->
  truthy (prop v "final_report") = false ->
  extract_reply E question v = Ok no_report_reply.
Proof.
  intros Hv Ht. rewrite extract_reply_steps, (get_prop _ _ Hv), Ht. reflexivity.
Qed.

Lemma extract_reply_unreadable (question v : value) :
  readable E question v = false ->
  exists e, extract_reply E question v = Throw e.
Proof.
  unfold readable, not_null. intros H.
  destruct (nullish v) eqn:Hv.
  { rewrite extract_reply_steps.
    destruct (get_nullish v "final_report" Hv) as [e ->]. eauto. }
  simpl in H.
  destruct (truthy (prop v "final_report")) eqn:Ht; [|discriminate].
  rewrite (extract_reply_report _ _ Hv Ht). cbv zeta.
  unfold reply_readable in H.
  destruct (report_readable E (prop v "final_report")) eqn:Hr.
  - rewrite (report_steps _ Hr), length_zero. rewrite andb_true_l in H.
    destruct (omap id (sections E (prop v "final_report"))); [|discriminate].
    apply fallback_reply_throw, H.
  - destruct (report_steps_throw _ Hr) as [e ->]. eauto.
Qed.

Lemma join_nonempty (sep p : string) (rest : list string) :
  Text.nonempty p = true -> Text.nonempty (Text.join sep (p :: rest)) = true.
Proof. destruct p; [discriminate|]. destruct rest; reflexivity. Qed.

Lemma section_nonempty (report : value) (o : option string) (s : string) :
  In o (sections E report) -> o = Some s -> Text.nonempty s = true.
Proof.
  unfold sections, alerts_section, recommendations_section, list_section,
    log_section, summary_section.
  intros [H | [H | [H | [H | []]]]] Hs; subst o;
    repeat match type of Hs with
           | (if ?c then _ else _) = _ => destruct c
           | (let _ := _ in _) = _ => cbv zeta in Hs
           end;
    inversion Hs; reflexivity.
Qed.

Lemma compose_nonempty (question report : value) :
  Text.nonempty (compose E question (sections E report)) = true.
Proof.
  pose proof (section_nonempty report) as Hsec.
  unfold compose.
  destruct (omap id (sections E report)) as [|p rest] eqn:Hparts.
  - reflexivity.
  - apply join_nonempty.
    assert (Hin : p ∈ omap id (sections E report))
      by (rewrite Hparts; left).
    apply list_elem_of_omap in Hin as (o & Ho & Hp).
    apply (Hsec o p); [apply list_elem_of_In; exact Ho|].
    destruct o; simpl in Hp; congruence.
Qed.

(** Whatever reply is read off a result is a non-empty string. *)
Lemma extract_reply_nonempty (question v : value) (s : string) :
  extract_reply E question v = Ok s -> Text.nonempty s = true.
Proof.
  intros H.
  destruct (readable E question v) eqn:Hr.
  - unfold readable, not_null in Hr. apply andb_prop in Hr as [Hv Hr].
    apply negb_true_iff in Hv.
    destruct (truthy (prop v "final_report")) eqn:Ht.
    + rewrite (extract_reply_readable _ _ Hv Ht Hr) in H.
      inversion H. apply compose_nonempty.
    + rewrite (extract_reply_no_report _ _ Hv Ht) in H. inversion H. reflexivity.
  - destruct (extract_reply_unreadable question v Hr) as [e He]. congruence.
Qed.

(** The handler, read as its three outcomes: the validation error, the
    failure to build the request, and the call with what follows it. *)
Lemma chat_run (w : world) (req_body : list (string * value)) :
  run (chat E w req_body)
  = (let question := field req_body "question" in
     let context := field req_body "context" in
     if truthy question then
       match build_input_data E w question context with
       | Throw err => ([], Ok (respond 500 (failure_body err)))
       | Ok input_data =>
           ([HttpCall "POST" langgraphUrl (payload E input_data)],
            Ok (after_call E question
                  (fetch w "POST" langgraphUrl (payload E input_data))))
       end
     else ([], Ok (respond 400 (VObj [("message", VStr "问题内容不能为空")])))).
Proof.
  unfold run, chat. cbv zeta.
  destruct (truthy (field req_body "question")); [|reflexivity].
  unfold try_catch, bind, lift, http_fetch, after_call, payload, push. simpl negb. cbv iota.
  destruct (build_input_data _ _ _ _) as [d|e]; [|reflexivity].
  simpl app.
  destruct (fetch w _ _ _) as [r|e]; [|reflexivity].
  destruct (ok r); simpl.
  - unfold ret. destruct (json r) as [v|e]; [|reflexivity].
    destruct (extract_reply _ _ v); reflexivity.
  - destruct (text r); reflexivity.
Qed.

End ReplyFacts.

(** ** Building the request *)

Section RequestFacts.

Variable E : engine.

Lemma model_info_built (context : value) :
  (if truthy (prop context "model")
   then let* name := get (prop context "model") "name" in
        let* type := get (prop context "model") "type" in
        Ok (VObj [("name", name); ("type", or_else type (VStr "unknown"))])
   else Ok VNull)
  = Ok (model_info_of context).
Proof.
  unfold model_info_of. cbv zeta.
  destruct (truthy (prop context "model")) eqn:Hm; [|reflexivity].
  rewrite !(get_prop _ _ (truthy_not_nullish _ Hm)). reflexivity.
Qed.

Lemma build_usable (w : world) (question context : value) :
  context_usable E context = true ->
  build_input_data E w question context
  = Ok (VObj [("user_question", question);
              ("region", or_else (prop context "region") (VStr "未指定"));
              ("model_info", model_info_of context);
              ("datasets", VArr (datasets_of E context));
              ("emergency_type", VStr "general_inquiry");
              ("severity_level", VStr "low");
              ("timestamp", VStr (now w))]).
Proof.
  unfold context_usable, entries_ok, build_input_data, datasets_of, is_listed, not_null.
  intros H. apply andb_prop in H as [Hc Hd]. apply negb_true_iff in Hc.
  rewrite !(get_prop context _ Hc). cbv zeta.
  rewrite model_info_built.
  destruct (listed E (prop context "datasets")) as [[|]|e]; try discriminate;
    [|reflexivity].
  destruct (prop context "datasets") as [| | | | |items|]; try discriminate.
  simpl array_map.
  rewrite (map_result_total _ dataset_of (fun x => negb (nullish x))); [reflexivity| |exact Hd].
  intros x Hx. apply negb_true_iff in Hx. rewrite !(get_prop x _ Hx). reflexivity.
Qed.

Lemma build_unusable (w : world) (question context : value) :
  context_usable E context = false ->
  exists e, build_input_data E w question context = Throw e.
Proof.
  unfold context_usable, entries_ok, build_input_data, not_null.
  destruct (nullish context) eqn:Hc; simpl.
  { intros _. destruct (get_nullish context "region" Hc) as [e ->]. eauto. }
  rewrite !(get_prop context _ Hc). intros Hd.
  rewrite model_info_built.
  destruct (listed E (prop context "datasets")) as [[|]|e]; try discriminate; [|eauto].
  destruct (prop context "datasets") as [| | | | |items|]; simpl array_map; eauto.
  destruct (map_result_throws
              (fun d => let* name := get d "name" in
                        let* source := get d "source" in
                        Ok (VObj [("name", name); ("source", source)]))
              (fun x => negb (nullish x)) items) as [e ->]; [|exact Hd|eauto].
  intros x Hx. apply negb_false_iff in Hx.
  destruct (get_nullish x "name" Hx) as [e ->]. eauto.
Qed.

(** Whether and why the request cannot be built does not depend on the
    services. *)
Lemma build_throw_same (w1 w2 : world) (question context : value) (e : error) :
  build_input_data E w1 question context = Throw e ->
  build_input_data E w2 question context = Throw e.
Proof.
  unfold build_input_data.
  repeat match goal with
         | |- context [match ?x with Ok _ => _ | Throw _ => _ end] =>
             destruct x; try discriminate; try (intros H; exact H)
         | |- context [if ?c then _ else _] =>
             destruct c; try discriminate; try (intros H; exact H)
         end.
Qed.

End RequestFacts.

(** ** The chat proxy *)

Lemma upstream_failed_ok_json (answer : result response) :
  upstream_failed answer = false <-> exists v, ok_json answer = Some v.
Proof.
  unfold upstream_failed, ok_json, throws.
  destruct answer as [r|e]; [|split; [discriminate|intros [v H]; discriminate]].
  destruct (ok r); simpl; [|split; [discriminate|intros [v H]; discriminate]].
  destruct (json r); split; eauto; try discriminate. intros [v' H]. discriminate.
Qed.

Lemma after_call_failed (E : engine) (question : value)
    (answer : result response) :
  upstream_failed answer = true ->
  exists e, after_call E question answer = respond 500 (failure_body e).
Proof.
  unfold upstream_failed, after_call, throws.
  destruct answer as [r|e]; [|eauto].
  destruct (ok r); simpl.
  - destruct (json r); [discriminate|eauto].
  - intros _. destruct (text r); eauto.
Qed.

Lemma after_call_ok_json (E : engine) (question : value)
    (answer : result response) (v : value) :
  ok_json answer = Some v ->
  after_call E question answer
  = match extract_reply E question v with
    | Ok aiReply => respond 200 (VObj [("reply", VStr aiReply)])
    | Throw err => respond 500 (failure_body err)
    end.
Proof.
  unfold ok_json, after_call.
  destruct answer as [r|e]; [|discriminate].
  destruct (ok r); [|discriminate]. simpl.
  destruct (json r); [|discriminate]. intros H. inversion H. reflexivity.
Qed.

Lemma nonempty_neq (s : string) : Text.nonempty s = true -> s <> "".
Proof. destruct s; [discriminate|congruence]. Qed.

Lemma after_call_200 (E : engine) (question : value)
    (answer : result response) :
  status (after_call E question answer) = 200 ->
  exists s, body (after_call E question answer) = VObj [("reply", VStr s)] /\ s <> "".
Proof.
  destruct (upstream_failed answer) eqn:Hf.
  - destruct (after_call_failed E question answer Hf) as [e ->]. discriminate.
  - apply upstream_failed_ok_json in Hf as [v Hv].
    rewrite (after_call_ok_json _ _ _ _ Hv).
    destruct (extract_reply E question v) as [s|e] eqn:He; [|discriminate].
    intros _. exists s. split; [reflexivity|].
    apply nonempty_neq, (extract_reply_nonempty _ _ _ _ He).
Qed.

(** C3: a request to /api/chat whose question field is missing or empty (any
    value JavaScript treats as false) is answered with HTTP 400 and the
    validation message, and the handler makes no outbound call: the core's
    /process_emergency_event is never reached. *)
Theorem chat_rejects_missing_question (E : engine) (w : world)
    (req_body : list (string * value)) :
  truthy (field req_body "question") = false ->
  run (chat E w req_body)
  = ([], Ok (respond 400 (VObj [("message", VStr "问题内容不能为空")]))).
Proof. intros H. rewrite chat_run. cbv zeta. rewrite H. reflexivity. Qed.

Lemma chat_rejects_missing_question_witness :
  run (chat sample_engine (sample_world "2025-06-01T08:00:00.000Z" VNull) [])
  = ([], Ok (respond 400 (VObj [("message", VStr "问题内容不能为空")])))
  /\ run (chat sample_engine (sample_world "2025-06-01T08:00:00.000Z" VNull)
            [("question", VStr ""); ("context", VObj [])])
     = ([], Ok (respond 400 (VObj [("message", VStr "问题内容不能为空")]))).
Proof.
  split; apply chat_rejects_missing_question; reflexivity.
Defined.

(** C1, as amended: for every /api/chat request with a non-empty question and
    a usable context (neither null nor missing; its datasets either absent,
    empty, or a non-empty array without null entries, where a datasets value
    that is not an array counts as empty once its length is not a number
    above zero, and is not usable when its length is an object with a
    toString field of its own, which cannot be compared), the handler makes
    exactly one outbound call, a POST to the core's /process_emergency_event
    whose body is { input_data }; input_data holds user_question (the
    question), region (the context's region, or the default marker),
    model_info (never undefined), datasets (an array), emergency_type,
    severity_level and timestamp, with emergency_type always
    'general_inquiry' and severity_level always 'low'. *)
Theorem chat_posts_input_data (E : engine) (w : world)
    (req_body : list (string * value)) :
  truthy (field req_body "question") = true ->
  context_usable E (field req_body "context") = true ->
  exists region model_info datasets,
    fst (run (chat E w req_body))
    = [HttpCall "POST" langgraphUrl
         (Some (stringify_text E
                  (VObj [("input_data",
                          VObj [("user_question", field req_body "question");
                                ("region", region);
                                ("model_info", model_info);
                                ("datasets", VArr datasets);
                                ("emergency_type", VStr "general_inquiry");
                                ("severity_level", VStr "low");
                                ("timestamp", VStr (now w))])])))]
    /\ region = or_else (prop (field req_body "context") "region") (VStr "未指定")
    /\ truthy region = true
    /\ model_info <> VUndef
    /\ option_map Url.path (Url.parse langgraphUrl) = Some "/process_emergency_event".
Proof.
  intros Hq Hc.
  exists (or_else (prop (field req_body "context") "region") (VStr "未指定")),
    (model_info_of (field req_body "context")),
    (datasets_of E (field req_body "context")).
  rewrite chat_run. cbv zeta. rewrite Hq, (build_usable E w _ _ Hc).
  repeat split.
  - unfold or_else. destruct (truthy (prop _ "region")) eqn:Hr; [exact Hr|reflexivity].
  - unfold model_info_of. destruct (truthy (prop _ "model")); discriminate.
Qed.

Lemma chat_posts_input_data_witness :
  exists region model_info datasets,
    fst (run (chat sample_engine (sample_world "2025-06-01T08:00:00.000Z" (VObj []))
                [("question", VStr "Is the river rising?");
                 ("context", VObj [("region", VStr "Hubei");
                                   ("model", VNull);
                                   ("datasets", VArr [VObj [("name", VStr "gauges");
                                                             ("source", VStr "MWR")]])])]))
    = [HttpCall "POST" langgraphUrl
         (Some (stringify_text sample_engine
                  (VObj [("input_data",
                          VObj [("user_question", VStr "Is the river rising?");
                                ("region", region);
                                ("model_info", model_info);
                                ("datasets", VArr datasets);
                                ("emergency_type", VStr "general_inquiry");
                                ("severity_level", VStr "low");
                                ("timestamp", VStr "2025-06-01T08:00:00.000Z")])])))]
    /\ region = VStr "Hubei"
    /\ truthy region = true
    /\ model_info <> VUndef
    /\ option_map Url.path (Url.parse langgraphUrl) = Some "/process_emergency_event".
Proof.
  exact (chat_posts_input_data sample_engine
           (sample_world "2025-06-01T08:00:00.000Z" (VObj []))
           [("question", VStr "Is the river rising?");
            ("context", VObj [("region", VStr "Hubei");
                              ("model", VNull);
                              ("datasets", VArr [VObj [("name", VStr "gauges");
                                                        ("source", VStr "MWR")]])])]
           eq_refl eq_refl).
Defined.

(** C1 fails as stated: a request with a question and no context is answered
    with HTTP 500 before any call is made, so no POST reaches the core. *)
Lemma chat_without_context_posts_nothing :
  truthy (field [("question", VStr "Is the river rising?")] "question") = true
  /\ run (chat sample_engine (sample_world "2025-06-01T08:00:00.000Z" (VObj []))
            [("question", VStr "Is the river rising?")])
     = ([],
        Ok (respond 500
              (VObj [("message",
                      VStr "与应急管理系统通信时发生错误: Cannot read properties of undefined (reading 'region')")]))).
Proof. split; reflexivity. Qed.

(** The usable contexts are exactly those for which the call is made. *)
Lemma chat_unusable_context (E : engine) (w : world)
    (req_body : list (string * value)) :
  truthy (field req_body "question") = true ->
  context_usable E (field req_body "context") = false ->
  exists e, run (chat E w req_body) = ([], Ok (respond 500 (failure_body e))).
Proof.
  intros Hq Hc. rewrite chat_run. cbv zeta. rewrite Hq.
  destruct (build_unusable E w (field req_body "question") _ Hc) as [e ->].
  eauto.
Qed.

(** A datasets value whose length cannot be compared is not usable: the
    request is answered with HTTP 500 and no call is made. *)
Lemma chat_length_without_text :
  context_usable sample_engine
    (VObj [("datasets", VObj [("length", VObj [("toString", VNull)])])]) = false
  /\ run (chat sample_engine (sample_world "2025-06-01T08:00:00.000Z" (VObj []))
            [("question", VStr "Is the river rising?");
             ("context", VObj [("datasets", VObj [("length", VObj [("toString", VNull)])])])])
     = ([],
        Ok (respond 500
              (VObj [("message",
                      VStr "与应急管理系统通信时发生错误: Cannot convert object to primitive value")]))).
Proof. split; reflexivity. Qed.

(** C2, as amended: for every /api/chat request with a non-empty question the
    handler responds, and a 200 response always carries a non-empty reply
    string.  When the request is sent and every ok JSON body the core returns
    is readable (not null; if its final_report is true for JavaScript: the
    report's alerts and recommendations, when non-empty, arrays without null
    entries, the last log entry not null, the lengths comparable, and every
    value put into the reply, the question included when the fallback
    sentence quotes it, free of objects with a toString field of their own),
    the handler responds 500, with a diagnostic message, if and only if the
    call fails, returns non-ok or has no JSON body, and 200 otherwise; a
    result without final_report gets the fixed fallback text. *)
Theorem chat_answer_status (E : engine) (w : world)
    (req_body : list (string * value)) :
  truthy (field req_body "question") = true ->
  exists r,
    snd (run (chat E w req_body)) = Ok r
    /\ (status r = 200 ->
        exists s, body r = VObj [("reply", VStr s)] /\ s <> "")
    /\ (forall input_data,
          build_input_data E w (field req_body "question") (field req_body "context")
          = Ok input_data ->
          let answer := fetch w "POST" langgraphUrl (payload E input_data) in
          (forall v, ok_json answer = Some v ->
                     readable E (field req_body "question") v = true) ->
          (status r = 500 <-> upstream_failed answer = true)
          /\ (status r = 200 <-> upstream_failed answer = false)
          /\ (status r = 500 -> exists e, body r = failure_body e)
          /\ (forall v, ok_json answer = Some v ->
                        truthy (prop v "final_report") = false ->
                        body r = VObj [("reply", VStr no_report_reply)])).
Proof.
  intros Hq. rewrite chat_run. cbv zeta. rewrite Hq.
  destruct (build_input_data E w _ _) as [d|e] eqn:Hb.
  - eexists. split; [reflexivity|]. split; [apply after_call_200|].
    intros d' Hd'. inversion Hd'; subst d'. clear Hd'. intros Hread.
    set (answer := fetch w "POST" langgraphUrl (payload E d)) in *.
    destruct (upstream_failed answer) eqn:Hf.
    + destruct (after_call_failed E (field req_body "question") answer Hf) as [e He].
      rewrite He. simpl.
      repeat split; try discriminate; eauto.
      intros v Hv. assert (upstream_failed answer = false)
        by (apply upstream_failed_ok_json; eauto). congruence.
    + destruct (proj1 (upstream_failed_ok_json answer) Hf) as [v Hv].
      pose proof (Hread v Hv) as Hr.
      rewrite (after_call_ok_json _ _ _ _ Hv).
      unfold readable, not_null in Hr. apply andb_prop in Hr as [Hn Hr].
      apply negb_true_iff in Hn.
      destruct (truthy (prop v "final_report")) eqn:Ht.
      * rewrite (extract_reply_readable _ _ _ Hn Ht Hr). simpl.
        repeat split; try discriminate; try congruence.
      * rewrite (extract_reply_no_report _ _ _ Hn Ht). simpl.
        repeat split; try discriminate; try congruence.
  - eexists. split; [reflexivity|]. split; [discriminate|].
    intros d Hd. discriminate.
Qed.

Lemma chat_answer_status_witness :
  exists r,
    snd (run (chat sample_engine
                (sample_world "2025-06-01T08:00:00.000Z"
                   (VObj [("final_report", VObj [("summary", VStr "No flood risk.")])]))
                [("question", VStr "Is the river rising?"); ("context", VObj [])]))
    = Ok r
    /\ status r = 200
    /\ exists s, body r = VObj [("reply", VStr s)] /\ s <> "".
Proof.
  destruct (chat_answer_status sample_engine
              (sample_world "2025-06-01T08:00:00.000Z"
                 (VObj [("final_report", VObj [("summary", VStr "No flood risk.")])]))
              [("question", VStr "Is the river rising?"); ("context", VObj [])]
              eq_refl) as (r & Hrun & Hreply & Hsent).
  exists r. split; [exact Hrun|].
  assert (H200 : status r = 200).
  { eapply Hsent; [reflexivity| |reflexivity].
    intros v Hv. inversion Hv. reflexivity. }
  split; [exact H200|exact (Hreply H200)].
Defined.

(** C2 fails as stated: the core answers ok with the JSON body null, and the
    handler responds 500 although the call neither failed nor returned
    non-ok. *)
Lemma chat_null_result_is_500 :
  upstream_failed
    (fetch (sample_world "2025-06-01T08:00:00.000Z" VNull) "POST" langgraphUrl
       (payload sample_engine (VObj []))) = false
  /\ run (chat sample_engine (sample_world "2025-06-01T08:00:00.000Z" VNull)
            [("question", VStr "Is the river rising?"); ("context", VObj [])])
     = ([HttpCall "POST" langgraphUrl
           (payload sample_engine
              (VObj [("user_question", VStr "Is the river rising?");
                     ("region", VStr "未指定");
                     ("model_info", VNull);
                     ("datasets", VArr []);
                     ("emergency_type", VStr "general_inquiry");
                     ("severity_level", VStr "low");
                     ("timestamp", VStr "2025-06-01T08:00:00.000Z")]))],
        Ok (respond 500
              (VObj [("message",
                      VStr "与应急管理系统通信时发生错误: Cannot read properties of null (reading 'final_report')")]))).
Proof. split; reflexivity. Qed.

(** A summary that cannot be made a text: the core's answer is ok JSON with a
    report, and the handler responds 500. *)
Lemma chat_summary_without_text :
  readable sample_engine (VStr "Is the river rising?")
    (VObj [("final_report", VObj [("summary", VObj [("toString", VNull)])])]) = false
  /\ snd (run (chat sample_engine
                 (sample_world "2025-06-01T08:00:00.000Z"
                    (VObj [("final_report",
                            VObj [("summary", VObj [("toString", VNull)])])]))
                 [("question", VStr "Is the river rising?"); ("context", VObj [])]))
     = Ok (respond 500
             (VObj [("message",
                     VStr "与应急管理系统通信时发生错误: Cannot convert object to primitive value")])).
Proof. split; reflexivity. Qed.

(** A question that cannot be made a text, where the fallback sentence would
    quote it: the handler responds 500. *)
Lemma chat_question_without_text :
  readable sample_engine (VObj [("toString", VNull)])
    (VObj [("final_report", VObj [("alerts", VArr [])])]) = false
  /\ snd (run (chat sample_engine
                 (sample_world "2025-06-01T08:00:00.000Z"
                    (VObj [("final_report", VObj [("alerts", VArr [])])]))
                 [("question", VObj [("toString", VNull)]); ("context", VObj [])]))
     = Ok (respond 500
             (VObj [("message",
                     VStr "与应急管理系统通信时发生错误: Cannot convert object to primitive value")])).
Proof. split; reflexivity. Qed.

(** C4, as amended: for every upstream response whose final_report is true
    for JavaScript and readable (alerts and recommendations, when non-empty,
    arrays without null entries; the last log entry not null; the lengths
    comparable; what is shown of an entry, the log message, the summary and,
    for the fallback sentence, the question free of objects with a toString
    field of their own), the reply of /api/chat is the concatenation, in this
    order and joined by blank lines, of exactly the sections that are present
    and non-empty: the alerts list, the recommendations list, the message of
    the last processing_log entry and the summary; when no section yields
    content it is the fixed fallback sentence quoting the question.  Whatever
    such a report, a 200 response carries that text and no other.  A
    final_report that is false for JavaScript (missing, null, false, 0, the
    empty string) gets the fixed text for a missing report. *)
Theorem chat_reply_sections (E : engine) (w : world)
    (req_body : list (string * value)) (input_data v : value) :
  truthy (field req_body "question") = true ->
  build_input_data E w (field req_body "question") (field req_body "context")
  = Ok input_data ->
  ok_json (fetch w "POST" langgraphUrl (payload E input_data)) = Some v ->
  let question := field req_body "question" in
  let report := prop v "final_report" in
  let reply := compose E question (sections E report) in
  (truthy report = true ->
   (reply_readable E question report = true ->
    snd (run (chat E w req_body)) = Ok (respond 200 (VObj [("reply", VStr reply)])))
   /\ (reply_readable E question report = false ->
       exists e, snd (run (chat E w req_body)) = Ok (respond 500 (failure_body e)))
   /\ (forall r, snd (run (chat E w req_body)) = Ok r -> status r = 200 ->
                 body r = VObj [("reply", VStr reply)]))
  /\ (truthy report = false -> nullish v = false ->
      snd (run (chat E w req_body))
      = Ok (respond 200 (VObj [("reply", VStr no_report_reply)]))).
Proof.
  intros Hq Hb Hv. cbv zeta. rewrite chat_run. cbv zeta.
  rewrite Hq, Hb. simpl snd.
  rewrite (after_call_ok_json _ _ _ _ Hv).
  split.
  - intros Ht.
    assert (Hn : nullish v = false).
    { destruct v; try reflexivity; discriminate. }
    destruct (reply_readable E (field req_body "question") (prop v "final_report")) eqn:Hr.
    + rewrite (extract_reply_readable _ _ _ Hn Ht Hr).
      split; [reflexivity|]. split; [discriminate|].
      intros r Hrun _. inversion Hrun. reflexivity.
    + assert (Hu : readable E (field req_body "question") v = false).
      { unfold readable, not_null. rewrite Hn, Ht, Hr. reflexivity. }
      destruct (extract_reply_unreadable E (field req_body "question") v Hu) as [e ->].
      split; [discriminate|]. split; [eauto|].
      intros r Hrun H200. inversion Hrun; subst r. discriminate.
  - intros Ht Hn. rewrite (extract_reply_no_report _ _ _ Hn Ht). reflexivity.
Qed.

Lemma chat_reply_sections_witness :
  snd (run (chat sample_engine
              (sample_world "2025-06-01T08:00:00.000Z"
                 (VObj [("final_report",
                         VObj [("processing_log", VArr [VObj [("message", VStr "received")];
                                                        VObj [("message", VStr "report ready")]]);
                               ("alerts", VArr [VObj [("message", VStr "Flood warning")]]);
                               ("recommendations", VArr [VObj [("action", VStr "Move uphill")]]);
                               ("summary", VStr "High risk")])]))
              [("question", VStr "Is the river rising?"); ("context", VObj [])]))
  = Ok (respond 200
          (VObj [("reply",
                  VStr ("**警报信息:**" ++ Text.nl ++ "- Flood warning"
                        ++ Text.nl ++ Text.nl
                        ++ "**建议措施:**" ++ Text.nl ++ "- Move uphill"
                        ++ Text.nl ++ Text.nl
                        ++ "**分析结果:** report ready"
                        ++ Text.nl ++ Text.nl
                        ++ "**总结:** High risk"))])).
Proof.
  exact (proj1 (proj1 (chat_reply_sections sample_engine
                  (sample_world "2025-06-01T08:00:00.000Z"
                     (VObj [("final_report",
                             VObj [("processing_log",
                                    VArr [VObj [("message", VStr "received")];
                                          VObj [("message", VStr "report ready")]]);
                                   ("alerts", VArr [VObj [("message", VStr "Flood warning")]]);
                                   ("recommendations",
                                    VArr [VObj [("action", VStr "Move uphill")]]);
                                   ("summary", VStr "High risk")])]))
                  [("question", VStr "Is the river rising?"); ("context", VObj [])]
                  _ _ eq_refl eq_refl eq_refl) eq_refl) eq_refl).
Defined.

(** C4 fails as stated: the report has a non-empty alerts list, yet the
    handler returns no reply built from it; the null entry makes the
    extraction throw and the response is HTTP 500. *)
Lemma chat_null_alert_is_500 :
  truthy (prop (VObj [("final_report", VObj [("alerts", VArr [VNull])])]) "final_report") = true
  /\ snd (run (chat sample_engine
                 (sample_world "2025-06-01T08:00:00.000Z"
                    (VObj [("final_report", VObj [("alerts", VArr [VNull])])]))
                 [("question", VStr "Is the river rising?"); ("context", VObj [])]))
     = Ok (respond 500
             (VObj [("message",
                     VStr "与应急管理系统通信时发生错误: Cannot read properties of null (reading 'message')")])).
Proof. split; reflexivity. Qed.

(** C7: the reply of /api/chat is a function of the question and of the
    core's answer alone.  Two runs on the same request, at different times
    and against services that answer the two POSTs alike (a deterministic
    stub, the bodies differing in their timestamps only), end in the identical
    response; and two requests with the same question whose calls get the
    same answer end in the identical response whatever their contexts. *)
Theorem chat_reply_deterministic (E : engine) (w1 w2 : world) :
  (forall req_body,
      (forall d1 d2,
          build_input_data E w1 (field req_body "question") (field req_body "context") = Ok d1 ->
          build_input_data E w2 (field req_body "question") (field req_body "context") = Ok d2 ->
          fetch w1 "POST" langgraphUrl (payload E d1) = fetch w2 "POST" langgraphUrl (payload E d2)) ->
      snd (run (chat E w1 req_body)) = snd (run (chat E w2 req_body)))
  /\ (forall req_body1 req_body2 d1 d2,
         field req_body1 "question" = field req_body2 "question" ->
         build_input_data E w1 (field req_body1 "question") (field req_body1 "context") = Ok d1 ->
         build_input_data E w2 (field req_body2 "question") (field req_body2 "context") = Ok d2 ->
         fetch w1 "POST" langgraphUrl (payload E d1) = fetch w2 "POST" langgraphUrl (payload E d2) ->
         snd (run (chat E w1 req_body1)) = snd (run (chat E w2 req_body2))).
Proof.
  split.
  - intros req_body Hstub. rewrite !chat_run. cbv zeta.
    destruct (truthy (field req_body "question")); [|reflexivity].
    destruct (build_input_data E w1 _ _) as [d1|e1] eqn:H1;
      destruct (build_input_data E w2 _ _) as [d2|e2] eqn:H2; simpl.
    + rewrite (Hstub d1 d2 eq_refl eq_refl). reflexivity.
    + apply (build_throw_same E w2 w1) in H2. congruence.
    + apply (build_throw_same E w1 w2) in H1. congruence.
    + apply (build_throw_same E w1 w2) in H1. congruence.
  - intros b1 b2 d1 d2 Hq H1 H2 Ha. rewrite !chat_run. cbv zeta.
    rewrite <- Hq, H1. rewrite <- Hq in H2. rewrite H2.
    destruct (truthy (field b1 "question")); [|reflexivity].
    simpl. rewrite Ha. reflexivity.
Qed.

Lemma chat_reply_deterministic_witness :
  snd (run (chat sample_engine
              (sample_world "2025-06-01T08:00:00.000Z"
                 (VObj [("final_report", VObj [("summary", VStr "No flood risk.")])]))
              [("question", VStr "Is the river rising?"); ("context", VObj [])]))
  = snd (run (chat sample_engine
                (sample_world "2025-06-02T23:30:00.000Z"
                   (VObj [("final_report", VObj [("summary", VStr "No flood risk.")])]))
                [("question", VStr "Is the river rising?"); ("context", VObj [])])).
Proof.
  exact (proj1 (chat_reply_deterministic sample_engine
                  (sample_world "2025-06-01T08:00:00.000Z"
                     (VObj [("final_report", VObj [("summary", VStr "No flood risk.")])]))
                  (sample_world "2025-06-02T23:30:00.000Z"
                     (VObj [("final_report", VObj [("summary", VStr "No flood risk.")])])))
               [("question", VStr "Is the river rising?"); ("context", VObj [])]
               (fun d1 d2 _ _ => eq_refl)).
Defined.

(** ** The health check *)

(** C5 does not hold of the code: both URLs name the host 10.0.3.4, but the
    chat handler posts to port 2024 while the health check, whose URL names
    no port, goes to port 80. *)
Theorem health_check_port_differs (w : world) :
  fst (run (health w)) = [HttpCall "GET" healthUrl None]
  /\ option_map Url.host (Url.parse langgraphUrl) = Some "10.0.3.4"
  /\ option_map Url.host (Url.parse healthUrl) = Some "10.0.3.4"
  /\ option_map Url.port (Url.parse langgraphUrl) = Some 2024
  /\ option_map Url.port (Url.parse healthUrl) = Some 80
  /\ option_map Url.path (Url.parse healthUrl) = Some "/system_health".
Proof.
  repeat split.
  unfold run, health, try_catch, bind, http_fetch, lift, ret, throw, push. simpl.
  destruct (fetch w "GET" healthUrl None) as [r|e]; [|reflexivity].
  destruct (ok r); simpl.
  - destruct (json r); reflexivity.
  - destruct (text r); reflexivity.
Qed.

(** ** Accounts *)

(** C8, as amended: for a login with username and password given, when no
    user has the name, or when bcrypt.compare resolves to false for the
    stored hash, the answer is HTTP 401 with one and the same body in both
    cases, after one and the same query; when bcrypt.compare rejects instead
    (as it does for a password that is not a string), the user who exists is
    answered HTTP 500; a successful login is answered with the user's id and
    username and nothing else of the row. *)
Theorem login_failure_uniform (w : world) (req_body : list (string * value)) :
  truthy (field req_body "username") = true ->
  truthy (field req_body "password") = true ->
  let username := field req_body "username" in
  let password := field req_body "password" in
  let query := DbQuery "SELECT * FROM users WHERE username = $1" [username] in
  (select_users w username = Ok [] ->
   run (login w req_body) = ([query], Ok (respond 401 login_failed_body)))
  /\ (forall user others,
         select_users w username = Ok (user :: others) ->
         compare w password (user_password_hash user) = Done false ->
         run (login w req_body) = ([query], Ok (respond 401 login_failed_body)))
  /\ (forall user others msg,
         select_users w username = Ok (user :: others) ->
         compare w password (user_password_hash user) = Rejected msg ->
         run (login w req_body)
         = ([query], Ok (respond 500 (VObj [("message", VStr "服务器错误")]))))
  /\ (forall user others,
         select_users w username = Ok (user :: others) ->
         compare w password (user_password_hash user) = Done true ->
         run (login w req_body)
         = ([query],
            Ok (respond 200
                  (VObj [("message", VStr "登录成功");
                         ("user", VObj [("id", user_id user);
                                        ("username", user_username user)])])))).
Proof.
  intros Hu Hp. cbv zeta.
  unfold run, login. rewrite Hu, Hp. simpl negb. simpl orb. cbv iota.
  unfold try_catch, bind, pool_query_select, lift, ret, push. simpl app.
  repeat split.
  - intros ->. reflexivity.
  - intros user others -> ->. reflexivity.
  - intros user others msg -> ->. reflexivity.
  - intros user others -> ->. reflexivity.
Qed.

Lemma login_failure_uniform_witness :
  run (login account_world [("username", VStr "nobody"); ("password", VStr "tiger")])
  = ([DbQuery "SELECT * FROM users WHERE username = $1" [VStr "nobody"]],
     Ok (respond 401 login_failed_body))
  /\ run (login account_world [("username", VStr "lin"); ("password", VStr "lion")])
     = ([DbQuery "SELECT * FROM users WHERE username = $1" [VStr "lin"]],
        Ok (respond 401 login_failed_body))
  /\ run (login account_world [("username", VStr "lin"); ("password", VStr "tiger")])
     = ([DbQuery "SELECT * FROM users WHERE username = $1" [VStr "lin"]],
        Ok (respond 200
              (VObj [("message", VStr "登录成功");
                     ("user", VObj [("id", VNum 7); ("username", VStr "lin")])]))).
Proof.
  split; [|split].
  - exact (proj1 (login_failure_uniform account_world
                    [("username", VStr "nobody"); ("password", VStr "tiger")]
                    eq_refl eq_refl) eq_refl).
  - exact (proj1 (proj2 (login_failure_uniform account_world
                           [("username", VStr "lin"); ("password", VStr "lion")]
                           eq_refl eq_refl)) sample_user [] eq_refl eq_refl).
  - exact (proj2 (proj2 (proj2 (login_failure_uniform account_world
                                  [("username", VStr "lin"); ("password", VStr "tiger")]
                                  eq_refl eq_refl))) sample_user [] eq_refl eq_refl).
Defined.

(** C8 fails as stated: with a password that is a number the comparison with
    the stored hash is rejected, so the login of the user who exists is
    answered HTTP 500 where that of an unknown user is answered HTTP 401;
    both fail, and the answers tell the two apart. *)
Lemma login_number_password_reveals_user :
  run (login account_world [("username", VStr "lin"); ("password", VNum 5)])
  = ([DbQuery "SELECT * FROM users WHERE username = $1" [VStr "lin"]],
     Ok (respond 500 (VObj [("message", VStr "服务器错误")])))
  /\ run (login account_world [("username", VStr "nobody"); ("password", VNum 5)])
     = ([DbQuery "SELECT * FROM users WHERE username = $1" [VStr "nobody"]],
        Ok (respond 401 login_failed_body)).
Proof. split; reflexivity. Qed.

(** C9: /api/register responds 400 exactly when username or password is
    missing (false for JavaScript), and then without any database call; 409
    exactly when the insert fails with the error code '23505'; and 201 exactly
    when the insert succeeds, with a body that holds the message and the new
    user's id and username only. *)
Theorem register_status (w : world) (req_body : list (string * value)) :
  exists r,
    snd (run (register w req_body)) = Ok r
    /\ (status r = 400 <->
        truthy (field req_body "username") = false
        \/ truthy (field req_body "password") = false)
    /\ (status r = 400 -> fst (run (register w req_body)) = [])
    /\ (status r = 409 <->
        exists e, insert_attempt w req_body = Some (Throw e) /\ code e = Some "23505")
    /\ (status r = 201 <-> exists row, insert_attempt w req_body = Some (Ok row))
    /\ (forall row, insert_attempt w req_body = Some (Ok row) ->
          body r = VObj [("message", VStr "注册成功");
                         ("user", VObj [("id", fst row); ("username", snd row)])])
    /\ (insert_attempt w req_body = None -> fst (run (register w req_body)) = []).
Proof.
  unfold run, register, insert_attempt. cbv zeta.
  destruct (truthy (field req_body "username")) eqn:Hu;
    destruct (truthy (field req_body "password")) eqn:Hp; simpl negb; simpl orb;
    simpl andb; cbv iota;
    try (eexists; split; [reflexivity|]; simpl;
         repeat split; try discriminate; try tauto; eauto;
         try (intros [e [He _]]; discriminate); try (intros [row Hrow]; discriminate)).
  unfold try_catch, bind, lift, pool_query_insert, ret, settle, push. simpl app.
  destruct (genSalt w 10) as [salt|msg].
  2:{ eexists; split; [reflexivity|]; simpl.
      repeat split; try discriminate; try (intros [H|H]; discriminate);
        try (intros [e [He _]]; discriminate); try (intros [row Hrow]; discriminate). }
  destruct (hash w (field req_body "password") salt) as [h|msg].
  2:{ eexists; split; [reflexivity|]; simpl.
      repeat split; try discriminate; try (intros [H|H]; discriminate);
        try (intros [e [He _]]; discriminate); try (intros [row Hrow]; discriminate). }
  destruct (insert_user w (field req_body "username") h) as [row|e].
  - eexists; split; [reflexivity|]; simpl.
    repeat split; try discriminate; try (intros [H|H]; discriminate);
      try (intros [e [He _]]; discriminate); eauto.
    intros row' H. inversion H. reflexivity.
  - unfold code_is. destruct (code e) as [c|] eqn:Hc.
    + destruct (String.eqb c "23505") eqn:Hcode.
      * apply String.eqb_eq in Hcode. subst c.
        eexists; split; [reflexivity|]; simpl.
        repeat split; try discriminate; try (intros [H|H]; discriminate);
          try (intros [row Hrow]; discriminate); eauto.
      * apply String.eqb_neq in Hcode.
        eexists; split; [reflexivity|]; simpl.
        repeat split; try discriminate; try (intros [H|H]; discriminate);
          try (intros [row Hrow]; discriminate).
        intros [e' [He' Hc']]. inversion He'; subst e'. congruence.
    + eexists; split; [reflexivity|]; simpl.
      repeat split; try discriminate; try (intros [H|H]; discriminate);
        try (intros [row Hrow]; discriminate).
      intros [e' [He' Hc']]. inversion He'; subst e'. congruence.
Qed.

Lemma register_status_witness :
  exists r,
    snd (run (register account_world [("username", VStr "lin"); ("password", VStr "tiger")]))
    = Ok r
    /\ status r = 409
    /\ fst (run (register account_world [("username", VStr "lin"); ("password", VStr "tiger")]))
       = [DbQuery "INSERT INTO users (username, password_hash) VALUES ($1, $2) RETURNING id, username"
            [VStr "lin"; VStr "$2a$10$N9qo8uLOickgx2ZMRZoMyeIjZAgcfl7p92ldGxad68LJZdL17lhWy"]].
Proof.
  destruct (register_status account_world
              [("username", VStr "lin"); ("password", VStr "tiger")])
    as (r & Hrun & _ & _ & H409 & _).
  exists r. split; [exact Hrun|]. split; [|reflexivity].
  apply H409. eexists. split; reflexivity.
Defined.

(** ** The chat panel *)

Section PanelFacts.

Variable E : engine.
Variable trim : string -> string.
Variable fetch : string -> string -> option string -> result response.
Variables selectedSubModel selectedRegion drivingDatasets : value.

(** C10, as amended: sendMessage leaves the panel as it is when the trimmed
    input is empty or a reply is pending; otherwise it appends exactly one
    user message and then, whether the backend call succeeds or throws,
    exactly one AI message, and after such a call isTyping is false and the
    input field is cleared; in every case the earlier messages stay as they
    were, a prefix of the new list. *)
Theorem sendMessage_appends (this : Panel.data) :
  let userMessage := trim (Panel.userInput this) in
  let after :=
    Panel.sendMessage E trim fetch selectedSubModel selectedRegion drivingDatasets this in
  let asked := Panel.ask E fetch selectedSubModel selectedRegion drivingDatasets userMessage in
  (Text.nonempty userMessage = false \/ Panel.isTyping this = true -> after = this)
  /\ (Text.nonempty userMessage = true ->
      Panel.isTyping this = false ->
      Panel.messages after
      = (Panel.messages this
           ++ [Panel.mkMsg "user" (VStr userMessage);
               Panel.mkMsg "ai" (Panel.shown asked)])%list
      /\ Panel.isTyping after = false
      /\ Panel.userInput after = "")
  /\ (exists added,
         Panel.messages after = (Panel.messages this ++ added)%list
         /\ (added = []
             \/ exists reply, added = [Panel.mkMsg "user" (VStr userMessage);
                                       Panel.mkMsg "ai" reply])).
Proof.
  intros userMessage after asked.
  assert (Hpass : Text.nonempty userMessage = true -> Panel.isTyping this = false ->
                  Panel.messages after
                  = (Panel.messages this
                       ++ [Panel.mkMsg "user" (VStr userMessage);
                           Panel.mkMsg "ai" (Panel.shown asked)])%list
                  /\ Panel.isTyping after = false
                  /\ Panel.userInput after = "").
  { intros Hin Hty. subst after. unfold Panel.sendMessage.
    fold userMessage. rewrite Hin, Hty. simpl negb. simpl orb. cbv iota.
    fold asked. destruct asked; simpl; unfold push; rewrite <- app_assoc; auto. }
  assert (Hstay : Text.nonempty userMessage = false \/ Panel.isTyping this = true ->
                  after = this).
  { intros H. subst after. unfold Panel.sendMessage. fold userMessage.
    destruct H as [-> | ->]; [reflexivity|].
    destruct (Text.nonempty userMessage); reflexivity. }
  split; [exact Hstay|]. split; [exact Hpass|].
  destruct (Text.nonempty userMessage) eqn:Hin; destruct (Panel.isTyping this) eqn:Hty.
  - exists []. rewrite Hstay, app_nil_r; auto.
  - destruct (Hpass eq_refl eq_refl) as [Hm _]. eexists. split; [exact Hm|]. right. eauto.
  - exists []. rewrite Hstay, app_nil_r; auto.
  - exists []. rewrite Hstay, app_nil_r; auto.
Qed.

End PanelFacts.

Lemma sendMessage_appends_witness :
  Panel.messages
    (Panel.sendMessage sample_engine Panel.trim_ascii (answering (VObj [("reply", VStr "Stay clear of the banks.")]))
       VNull (VStr "Hubei") (VArr [])
       (Panel.set_userInput "  Is the river rising? " Panel.initial))
  = [Panel.mkMsg "ai" (VStr Panel.greeting);
     Panel.mkMsg "user" (VStr "Is the river rising?");
     Panel.mkMsg "ai" (VStr "Stay clear of the banks.")]
  /\ Panel.isTyping
       (Panel.sendMessage sample_engine Panel.trim_ascii
          (answering (VObj [("reply", VStr "Stay clear of the banks.")]))
          VNull (VStr "Hubei") (VArr [])
          (Panel.set_userInput "  Is the river rising? " Panel.initial)) = false
  /\ Panel.userInput
       (Panel.sendMessage sample_engine Panel.trim_ascii
          (answering (VObj [("reply", VStr "Stay clear of the banks.")]))
          VNull (VStr "Hubei") (VArr [])
          (Panel.set_userInput "  Is the river rising? " Panel.initial)) = "".
Proof.
  exact (proj1 (proj2 (sendMessage_appends sample_engine Panel.trim_ascii
                         (answering (VObj [("reply", VStr "Stay clear of the banks.")]))
                         VNull (VStr "Hubei") (VArr [])
                         (Panel.set_userInput "  Is the river rising? " Panel.initial)))
           eq_refl eq_refl).
Defined.

(** C10 fails as stated: a call on an input of spaces completes at the guard
    and leaves the input field as it was, not cleared; and a call made while a
    reply is pending completes with isTyping still true. *)
Lemma sendMessage_guard_keeps_state :
  Panel.userInput
    (Panel.sendMessage sample_engine Panel.trim_ascii (answering (VObj [("reply", VStr "ok")]))
       VNull (VStr "Hubei") (VArr [])
       (Panel.set_userInput "   " Panel.initial))
  = "   "
  /\ Panel.isTyping
       (Panel.sendMessage sample_engine Panel.trim_ascii (answering (VObj [("reply", VStr "ok")]))
          VNull (VStr "Hubei") (VArr [])
          (Panel.set_isTyping true Panel.initial))
     = true.
Proof. split; reflexivity. Qed.

(** ** Parallel invocation *)

Section GatewayFacts.

Local Open Scope nat_scope.

Context {Request Result : Type}.
Variable invoke : Request -> Result.
Variable requests : list Request.

Lemma consistent_dispatch :
  Gateway.consistent invoke requests (Gateway.dispatch requests).
Proof.
  unfold Gateway.consistent, Gateway.dispatch. simpl.
  split; [apply length_replicate|]. split; [apply NoDup_seq|]. split.
  - intros i Hi. apply elem_of_seq in Hi. lia.
  - intros i rq Hrq. apply lookup_lt_Some in Hrq.
    rewrite lookup_replicate_2 by exact Hrq.
    rewrite decide_True; [reflexivity|]. apply elem_of_seq. lia.
Qed.

Lemma consistent_complete (i : nat) (st : Gateway.state (Result := Result)) :
  Gateway.consistent invoke requests st ->
  Gateway.consistent invoke requests (Gateway.complete invoke requests i st).
Proof.
  intros (Hlen & Hnd & Hin & Hslots). unfold Gateway.complete.
  destruct (requests !! i) as [rq|] eqn:Hi; [|repeat split; assumption].
  unfold Gateway.consistent. simpl.
  split; [rewrite length_insert; exact Hlen|].
  split; [apply NoDup_filter; exact Hnd|].
  split.
  - intros j Hj. apply list_elem_of_filter in Hj as [_ Hj]. auto.
  - intros j rq' Hj. destruct (decide (i = j)) as [->|Hne].
    + rewrite list_lookup_insert_eq
        by (rewrite Hlen; apply lookup_lt_Some in Hj; exact Hj).
      rewrite decide_False.
      * congruence.
      * intros H. apply list_elem_of_filter in H as [H _]. congruence.
    + rewrite list_lookup_insert_ne by exact Hne. rewrite (Hslots j rq' Hj).
      destruct (decide (j ∈ Gateway.in_flight st)) as [Hy|Hn].
      * rewrite decide_True; [reflexivity|].
        apply list_elem_of_filter. split; [congruence|exact Hy].
      * rewrite decide_False; [reflexivity|].
        intros H. apply list_elem_of_filter in H as [_ H]. contradiction.
Qed.

Lemma consistent_steps (st st' : Gateway.state (Result := Result)) :
  Gateway.steps invoke requests st st' ->
  Gateway.consistent invoke requests st ->
  Gateway.consistent invoke requests st'.
Proof.
  induction 1 as [st|st1 st2 st3 Hstep _ IH]; [auto|].
  intros H1. apply IH. destruct Hstep. apply consistent_complete, H1.
Qed.

(** Once nothing is in flight, the slots hold the results in request order. *)
Lemma collect_done (st : Gateway.state (Result := Result)) :
  Gateway.consistent invoke requests st ->
  Gateway.in_flight st = [] ->
  Gateway.collect st = Some (map invoke requests).
Proof.
  intros (Hlen & _ & _ & Hslots) Hdone. unfold Gateway.collect. rewrite Hdone.
  assert (Hs : Gateway.slots st = Some <$> (invoke <$> requests)).
  { apply list_eq. intros i. rewrite !list_lookup_fmap.
    destruct (requests !! i) as [rq|] eqn:Hi.
    - rewrite (Hslots i rq Hi), Hdone. rewrite decide_False; [reflexivity|].
      apply not_elem_of_nil.
    - simpl. apply lookup_ge_None. rewrite Hlen. apply lookup_ge_None. exact Hi. }
  rewrite Hs. apply mapM_fmap_Some. reflexivity.
Qed.

(** Completing an invocation that is in flight takes it, and it alone, out
    of flight. *)
Lemma complete_in_flight (i : nat) (st : Gateway.state (Result := Result)) (rest : list nat) :
  Gateway.consistent invoke requests st ->
  Gateway.in_flight st ≡ₚ i :: rest ->
  Gateway.in_flight (Gateway.complete invoke requests i st) ≡ₚ rest.
Proof.
  intros (_ & Hnd & Hin & _) Hperm. unfold Gateway.complete.
  assert (Hi : i ∈ Gateway.in_flight st) by (rewrite Hperm; left).
  destruct (lookup_lt_is_Some_2 requests i (Hin i Hi)) as [rq ->]. simpl.
  rewrite Hperm in Hnd. apply NoDup_cons in Hnd as [Hnot _].
  rewrite Hperm. rewrite filter_cons_False by (intros H; apply H; reflexivity).
  clear -Hnot. induction rest as [|j rest IH]; [reflexivity|].
  apply not_elem_of_cons in Hnot as [Hne Hnot].
  rewrite filter_cons_True by (intros H; apply Hne; symmetry; exact H).
  rewrite (IH Hnot) at 1. reflexivity.
Qed.

Lemma invoke_many_from (completion : list nat) (st : Gateway.state (Result := Result)) :
  Gateway.consistent invoke requests st ->
  Gateway.in_flight st ≡ₚ completion ->
  Gateway.collect
    (foldl (fun st i => Gateway.complete invoke requests i st) st completion)
  = Some (map invoke requests)
  /\ Gateway.steps invoke requests st
       (foldl (fun st i => Gateway.complete invoke requests i st) st completion).
Proof.
  revert st. induction completion as [|i rest IH]; intros st Hc Hperm; simpl.
  - split; [|constructor]. apply collect_done; [exact Hc|].
    apply Permutation_nil_r. exact Hperm.
  - destruct (IH (Gateway.complete invoke requests i st)) as [Hres Hsteps].
    + apply consistent_complete, Hc.
    + apply complete_in_flight; assumption.
    + split; [exact Hres|].
      eapply Gateway.steps_step; [|exact Hsteps].
      constructor. rewrite Hperm. left.
Qed.

(** C6: invoke_many dispatches every request before any completes, and
    returns one result per request, at the position of its request, whatever
    the order in which the invocations complete: every run of the scheduler
    that leaves nothing in flight collects the list of results in request
    order, and so does the call under any order of completion. *)
Theorem invoke_many_positional :
  Gateway.in_flight (Gateway.dispatch (Result := Result) requests) = seq 0 (length requests)
  /\ (forall st,
         Gateway.steps invoke requests (Gateway.dispatch requests) st ->
         Gateway.in_flight st = [] ->
         Gateway.collect st = Some (map invoke requests))
  /\ (forall completion,
         completion ≡ₚ seq 0 (length requests) ->
         Gateway.invoke_many invoke requests completion = Some (map invoke requests)
         /\ Gateway.steps invoke requests (Gateway.dispatch requests)
              (foldl (fun st i => Gateway.complete invoke requests i st)
                 (Gateway.dispatch requests) completion))
  /\ length (map invoke requests) = length requests.
Proof.
  split; [reflexivity|]. split; [|split].
  - intros st Hsteps Hdone. apply collect_done; [|exact Hdone].
    apply (consistent_steps _ _ Hsteps), consistent_dispatch.
  - intros completion Hperm. apply invoke_many_from; [apply consistent_dispatch|].
    simpl. symmetry. exact Hperm.
  - apply length_map.
Qed.

End GatewayFacts.

Lemma invoke_many_positional_witness :
  Gateway.invoke_many (fun rq : nat => (10 * rq)%nat) [3; 1; 2]%nat [2; 0; 1]%nat
  = Some [30; 10; 20]%nat.
Proof.
  exact (proj1 (proj1 (proj2 (proj2
           (invoke_many_positional (fun rq : nat => (10 * rq)%nat) [3; 1; 2]%nat)))
           [2; 0; 1]%nat
           (perm_trans (perm_swap 0%nat 2%nat [1%nat])
              (perm_skip 0%nat (perm_swap 1%nat 2%nat []))))).
Defined.

(** * Further properties of the handlers *)


(** ** The chat proxy: calls and diagnostics *)

Lemma after_call_status (E : engine) (question : value)
    (answer : result response) :
  status (after_call E question answer) = 200
  \/ status (after_call E question answer) = 500.
Proof.
  unfold after_call.
  destruct answer as [r|e]; [|right; reflexivity].
  destruct (ok r); simpl.
  - destruct (json r) as [v|e]; [|right; reflexivity].
    destruct (extract_reply E question v); [left|right]; reflexivity.
  - destruct (text r); right; reflexivity.
Qed.

(** X1: whatever the request, /api/chat ends in a response whose status is
    200, 400 or 500, after no outbound call or exactly one, a POST to the
    core's URL, and never a database query; a 400 comes without any call, a
    200 only after the call. *)
Theorem chat_calls_core_at_most_once (E : engine) (w : world)
    (req_body : list (string * value)) :
  exists r,
    snd (run (chat E w req_body)) = Ok r
    /\ (status r = 200 \/ status r = 400 \/ status r = 500)
    /\ (fst (run (chat E w req_body)) = []
        \/ exists sent,
             fst (run (chat E w req_body))
             = [HttpCall "POST" langgraphUrl (Some sent)])
    /\ (status r = 400 -> fst (run (chat E w req_body)) = [])
    /\ (status r = 200 -> fst (run (chat E w req_body)) <> []).
Proof.
  rewrite chat_run. cbv zeta.
  destruct (truthy (field req_body "question")).
  - destruct (build_input_data E w _ _) as [d|e].
    + eexists. split; [reflexivity|]. simpl.
      destruct (after_call_status E (field req_body "question")
                  (fetch w "POST" langgraphUrl (payload E d))) as [H|H]; rewrite H.
      * repeat split; auto; try discriminate. right. unfold payload. eauto.
      * repeat split; auto; try discriminate. right. unfold payload. eauto.
    + eexists. split; [reflexivity|]. simpl.
      repeat split; auto; discriminate.
  - eexists. split; [reflexivity|]. simpl. repeat split; auto; discriminate.
Qed.

(** X2: once the request is sent, a failure of the call is reported to the
    client with the cause in the message: the error of a call that could not
    be made, the text of a non-ok answer (whose JSON is not read), the error of
    an ok answer that is not JSON. *)
Theorem chat_reports_upstream_error (E : engine) (w : world)
    (req_body : list (string * value)) (input_data : value) :
  truthy (field req_body "question") = true ->
  build_input_data E w (field req_body "question") (field req_body "context")
  = Ok input_data ->
  let answer := fetch w "POST" langgraphUrl (payload E input_data) in
  let reported (cause : string) :=
    Ok (respond 500
          (VObj [("message", VStr ("与应急管理系统通信时发生错误: " ++ cause))])) in
  (forall e, answer = Throw e ->
             snd (run (chat E w req_body)) = reported (message e))
  /\ (forall rsp errorText,
         answer = Ok rsp -> ok rsp = false -> text rsp = Ok errorText ->
         snd (run (chat E w req_body))
         = reported ("LangGraph服务调用失败: " ++ errorText))
  /\ (forall rsp e,
         answer = Ok rsp -> ok rsp = true -> json rsp = Throw e ->
         snd (run (chat E w req_body)) = reported (message e)).
Proof.
  intros Hq Hb answer reported. rewrite chat_run. cbv zeta. rewrite Hq, Hb.
  fold answer. simpl snd. unfold after_call, reported, failure_body.
  repeat split.
  - intros e ->. reflexivity.
  - intros rsp t -> Hok Ht. rewrite Hok, Ht. reflexivity.
  - intros rsp e -> Hok Hj. rewrite Hok, Hj. reflexivity.
Qed.

Lemma chat_reports_upstream_error_witness :
  snd (run (chat sample_engine
              (mkWorld "2025-06-01T08:00:00.000Z"
                 (fun _ _ _ => Ok (mkResponse false (Ok "Internal Server Error")
                                     (Throw (mkError "Unexpected token I" None))))
                 (fun _ => Ok []) (fun u _ => Ok (VNum 1, u))
                 (fun _ => Done "") (fun _ _ => Done "") (fun _ _ => Done true))
              [("question", VStr "Is the river rising?"); ("context", VObj [])]))
  = Ok (respond 500
          (VObj [("message",
                  VStr "与应急管理系统通信时发生错误: LangGraph服务调用失败: Internal Server Error")])).
Proof.
  exact (proj1 (proj2 (chat_reports_upstream_error sample_engine
                         (mkWorld "2025-06-01T08:00:00.000Z"
                            (fun _ _ _ => Ok (mkResponse false (Ok "Internal Server Error")
                                                (Throw (mkError "Unexpected token I" None))))
                            (fun _ => Ok []) (fun u _ => Ok (VNum 1, u))
                            (fun _ => Done "") (fun _ _ => Done "") (fun _ _ => Done true))
                         [("question", VStr "Is the river rising?"); ("context", VObj [])]
                         _ eq_refl eq_refl))
           _ "Internal Server Error" eq_refl eq_refl eq_refl).
Defined.

(** ** The health proxy *)

(** X3: /api/langgraph/health makes exactly one call, a GET without body,
    and answers 200 with success true and the core's JSON as langgraph_status
    exactly when that call returns an ok JSON response; in every other case it
    answers 500 with success false, a message and a null langgraph_status. *)
Theorem health_status (w : world) :
  let answer := fetch w "GET" healthUrl None in
  fst (run (health w)) = [HttpCall "GET" healthUrl None]
  /\ exists r,
       snd (run (health w)) = Ok r
       /\ (status r = 200 <-> exists v, ok_json answer = Some v)
       /\ (forall v, ok_json answer = Some v ->
                     body r = VObj [("success", VBool true); ("langgraph_status", v)])
       /\ (status r <> 200 ->
           status r = 500
           /\ exists m, body r = VObj [("success", VBool false);
                                       ("message", VStr ("LangGraph健康检查失败: " ++ m));
                                       ("langgraph_status", VNull)]).
Proof.
  intros answer. unfold run, health, try_catch, bind, http_fetch, lift, ret, throw, push.
  simpl app. fold answer. unfold ok_json.
  destruct answer as [rsp|e].
  - destruct (ok rsp); simpl.
    + destruct (json rsp) as [v|e]; simpl.
      * split; [reflexivity|]. eexists. split; [reflexivity|]. simpl.
        repeat split; eauto; try congruence.
      * split; [reflexivity|]. eexists. split; [reflexivity|]. simpl.
        repeat split; try discriminate; eauto.
        intros [v H]. discriminate.
    + destruct (text rsp) as [t|e]; simpl;
        (split; [reflexivity|]; eexists; split; [reflexivity|]; simpl;
         repeat split; try discriminate; eauto; intros [v H]; discriminate).
  - simpl. split; [reflexivity|]. eexists. split; [reflexivity|]. simpl.
    repeat split; try discriminate; eauto. intros [v H]. discriminate.
Qed.

(** ** Accounts: validation, queries and what a failure tells *)

(** X4: /api/login answers 400 exactly when username or password is missing
    (false for JavaScript), without any database call; otherwise it makes
    exactly one call, the SELECT by username, and never a write.  It answers
    500 exactly when that query fails or the comparison of the password with
    the first row's hash is rejected, and the 500 body is the fixed text
    whatever the error was: the cause is not sent to the client. *)
Theorem login_status (w : world) (req_body : list (string * value)) :
  let username := field req_body "username" in
  let password := field req_body "password" in
  exists r,
    snd (run (login w req_body)) = Ok r
    /\ (status r = 400 <-> truthy username = false \/ truthy password = false)
    /\ (status r = 400 -> fst (run (login w req_body)) = [])
    /\ (status r <> 400 ->
        fst (run (login w req_body))
        = [DbQuery "SELECT * FROM users WHERE username = $1" [username]])
    /\ (status r = 500 <->
        truthy username = true /\ truthy password = true
        /\ ((exists e, select_users w username = Throw e)
            \/ exists user others msg,
                 select_users w username = Ok (user :: others)
                 /\ compare w password (user_password_hash user) = Rejected msg))
    /\ (status r = 500 -> body r = VObj [("message", VStr "服务器错误")])
    /\ (status r = 200 \/ status r = 400 \/ status r = 401 \/ status r = 500).
Proof.
  cbv zeta. unfold run, login.
  destruct (truthy (field req_body "username")) eqn:Hu;
    destruct (truthy (field req_body "password")) eqn:Hp; simpl negb; simpl orb; cbv iota;
    try (eexists; split; [reflexivity|]; simpl;
         repeat split; auto; try discriminate; try tauto;
         try (intros (H1 & H2 & _); discriminate); try (intros H; exfalso; apply H; reflexivity)).
  unfold try_catch, bind, pool_query_select, lift, ret, push. simpl app.
  destruct (select_users w (field req_body "username")) as [[|user others]|e].
  - eexists; split; [reflexivity|]; simpl.
    repeat split; auto; try discriminate; try (intros [H|H]; discriminate).
    intros (_ & _ & [[e H] | (u & o & m & H & _)]); discriminate.
  - destruct (compare w (field req_body "password") (user_password_hash user))
      as [[|]|msg] eqn:Hc; simpl.
    + eexists; split; [reflexivity|]; simpl.
      repeat split; auto; try discriminate; try (intros [H|H]; discriminate).
      intros (_ & _ & [[e H] | (u & o & m & H & H')]); [discriminate|].
      inversion H; subst u o. congruence.
    + eexists; split; [reflexivity|]; simpl.
      repeat split; auto; try discriminate; try (intros [H|H]; discriminate).
      intros (_ & _ & [[e H] | (u & o & m & H & H')]); [discriminate|].
      inversion H; subst u o. congruence.
    + eexists; split; [reflexivity|]; simpl.
      repeat split; auto; try discriminate; try (intros [H|H]; discriminate).
      right. eauto 6.
  - eexists; split; [reflexivity|]; simpl.
    repeat split; auto; try discriminate; try (intros [H|H]; discriminate).
    left. eauto.
Qed.

Lemma login_status_witness :
  exists r,
    snd (run (login account_world [("username", VStr "lin"); ("password", VNum 5)])) = Ok r
    /\ status r = 500
    /\ body r = VObj [("message", VStr "服务器错误")].
Proof.
  destruct (login_status account_world [("username", VStr "lin"); ("password", VNum 5)])
    as (r & Hrun & _ & _ & _ & H500 & Hbody & _).
  exists r. split; [exact Hrun|].
  assert (H : status r = 500).
  { apply H500. split; [reflexivity|]. split; [reflexivity|].
    right. exists sample_user, [], "Illegal arguments: number, string".
    split; reflexivity. }
  split; [exact H|exact (Hbody H)].
Defined.

(** X5: /api/register makes at most one database call, and it is the INSERT
    whose parameters are the username as given and the hash that the hashing
    library returned for the password under a salt of 10 rounds: the password
    itself is not among them.  The response is 201, 400, 409 or 500, and the
    500 body is the fixed text whatever the error was. *)
Theorem register_inserts_hash (w : world) (req_body : list (string * value)) :
  let username := field req_body "username" in
  let password := field req_body "password" in
  (fst (run (register w req_body)) = []
   \/ exists salt passwordHash,
        genSalt w 10 = Done salt
        /\ hash w password salt = Done passwordHash
        /\ fst (run (register w req_body))
           = [DbQuery "INSERT INTO users (username, password_hash) VALUES ($1, $2) RETURNING id, username"
                [username; VStr passwordHash]])
  /\ exists r,
       snd (run (register w req_body)) = Ok r
       /\ (status r = 201 \/ status r = 400 \/ status r = 409 \/ status r = 500)
       /\ (status r = 500 -> body r = VObj [("message", VStr "服务器错误")])
       /\ (status r = 201 \/ status r = 409 -> fst (run (register w req_body)) <> []).
Proof.
  cbv zeta. unfold run, register.
  destruct (truthy (field req_body "username"));
    destruct (truthy (field req_body "password")); simpl negb; simpl orb; cbv iota;
    try (split; [left; reflexivity|]; eexists; split; [reflexivity|]; simpl;
         repeat split; auto; try discriminate; intros [H|H]; discriminate).
  unfold try_catch, bind, lift, pool_query_insert, ret, settle, push. simpl app.
  destruct (genSalt w 10) as [salt|msg] eqn:Hs.
  2:{ split; [left; reflexivity|]. eexists; split; [reflexivity|]; simpl.
      repeat split; auto; try discriminate. intros [H|H]; discriminate. }
  destruct (hash w (field req_body "password") salt) as [h|msg] eqn:Hh.
  2:{ split; [left; reflexivity|]. eexists; split; [reflexivity|]; simpl.
      repeat split; auto; try discriminate. intros [H|H]; discriminate. }
  destruct (insert_user w (field req_body "username") h) as [row|e].
  - split; [right; exists salt, h; auto|]. eexists; split; [reflexivity|]; simpl.
    repeat split; auto; discriminate.
  - destruct (code_is "23505" e).
    + split; [right; exists salt, h; auto|].
      eexists. split; [reflexivity|]. simpl. repeat split; auto; discriminate.
    + split; [right; exists salt, h; auto|].
      eexists. split; [reflexivity|]. simpl. repeat split; auto; discriminate.
Qed.


(** ** The chat panel: what a press appends *)

Section PanelCases.

Variable E : engine.
Variable trim : string -> string.
Variable fetch : string -> string -> option string -> result response.
Variables selectedSubModel selectedRegion drivingDatasets : value.

(** [sendMessage] either does nothing or appends the trimmed input and one
    answer, clears the input and ends with [isTyping] false. *)
Lemma sendMessage_cases (this : Panel.data) :
  Panel.sendMessage E trim fetch selectedSubModel selectedRegion drivingDatasets this = this
  \/ (Text.nonempty (trim (Panel.userInput this)) = true
      /\ Panel.sendMessage E trim fetch selectedSubModel selectedRegion drivingDatasets this
         = Panel.mkData "" false (Panel.isCheckingHealth this)
             (Panel.messages this
                ++ [Panel.mkMsg "user" (VStr (trim (Panel.userInput this)));
                    Panel.mkMsg "ai"
                      (Panel.shown
                         (Panel.ask E fetch selectedSubModel selectedRegion drivingDatasets
                            (trim (Panel.userInput this))))])%list).
Proof.
  unfold Panel.sendMessage.
  destruct (Text.nonempty (trim (Panel.userInput this))) eqn:Hin; [|left; reflexivity].
  destruct (Panel.isTyping this); [left; reflexivity|].
  right. split; [reflexivity|]. simpl negb. simpl orb. cbv iota.
  destruct (Panel.ask E fetch selectedSubModel selectedRegion drivingDatasets
              (trim (Panel.userInput this)));
    simpl; unfold Panel.set_isTyping, Panel.push_message, Panel.set_userInput, push; simpl;
    rewrite <- app_assoc; reflexivity.
Qed.

Lemma ask_request (userMessage : string) :
  Panel.ask E fetch selectedSubModel selectedRegion drivingDatasets userMessage
  = (let* requestPayload :=
       PanelHealth.request_payload selectedSubModel selectedRegion drivingDatasets
         userMessage in
     let* response := fetch "POST" "/api/chat" (Some (stringify_text E requestPayload)) in
     if negb (ok response) then
       let* errorData := json response in
       let* msg := get errorData "message" in
       let* text := to_string E (or_else msg (VStr "与AI服务通信失败")) in
       Throw (mkError text None)
     else
       let* data := json response in
       get data "reply").
Proof.
  unfold Panel.ask, PanelHealth.request_payload.
  destruct (array_map _ drivingDatasets _); reflexivity.
Qed.

End PanelCases.

(** X6: checkHealth appends exactly one message in every case, whatever the
    network does: an analyst's message whose text is a non-empty string that
    begins with the report header.  It leaves the input field and isTyping as
    they were and ends with isCheckingHealth false. *)
Theorem checkHealth_appends (E : engine)
    (fetch : string -> string -> option string -> result response) (this : Panel.data) :
  exists report,
    PanelHealth.checkHealth E fetch this
    = Panel.mkData (Panel.userInput this) (Panel.isTyping this) false
        (Panel.messages this
           ++ [Panel.mkMsg "ai" (VStr (PanelHealth.health_header ++ report))])%list.
Proof.
  unfold PanelHealth.checkHealth, PanelHealth.health_done.
  destruct (PanelHealth.health_text E (fetch "GET" "/api/langgraph/health" None)) as [t|e] eqn:Ht.
  - unfold PanelHealth.health_text in Ht.
    destruct (fetch "GET" "/api/langgraph/health" None) as [rsp|e]; [|discriminate].
    destruct (json rsp) as [data|e]; [|discriminate].
    destruct (get data "success") as [success|e]; [|discriminate].
    destruct (truthy success).
    + destruct (get data "langgraph_status"); inversion Ht. eexists; reflexivity.
    + destruct (get data "message") as [msg|]; [|discriminate].
      destruct (to_string E msg); inversion Ht. eexists; reflexivity.
  - eexists; reflexivity.
Qed.

(** X7: when the drivingDatasets prop is not an array (for one, when the
    parent passes none), a press of send that passes the guard makes no
    request at all: the outcome is the same whatever the network would answer,
    and the analyst's message is the apology with the engine's type error. *)
Theorem sendMessage_needs_datasets (E : engine)
    (trim : string -> string)
    (fetch : string -> string -> option string -> result response)
    (selectedSubModel selectedRegion drivingDatasets : value) (this : Panel.data) :
  (forall items, drivingDatasets <> VArr items) ->
  Text.nonempty (trim (Panel.userInput this)) = true ->
  Panel.isTyping this = false ->
  exists cause,
    (forall fetch',
        Panel.sendMessage E trim fetch' selectedSubModel selectedRegion drivingDatasets this
        = Panel.mkData "" false (Panel.isCheckingHealth this)
            (Panel.messages this
               ++ [Panel.mkMsg "user" (VStr (trim (Panel.userInput this)));
                   Panel.mkMsg "ai"
                     (VStr ("抱歉，我遇到了一些麻烦，暂时无法回答。错误信息: " ++ cause))])%list)
    /\ (cause = "Cannot read properties of undefined (reading 'map')"
        \/ cause = "Cannot read properties of null (reading 'map')"
        \/ cause = "this.drivingDatasets.map is not a function").
Proof.
  intros Hne Hin Hty.
  assert (Hask : exists cause,
             (forall fetch' um,
                 Panel.ask E fetch' selectedSubModel selectedRegion drivingDatasets um
                 = Throw (TypeError cause))
             /\ (cause = "Cannot read properties of undefined (reading 'map')"
                 \/ cause = "Cannot read properties of null (reading 'map')"
                 \/ cause = "this.drivingDatasets.map is not a function")).
  { destruct drivingDatasets as [| | b | n | s | items | fields];
      try (eexists; split; [intros; reflexivity|auto]).
    exfalso. apply (Hne items). reflexivity. }
  destruct Hask as (cause & Hask & Hcause). exists cause. split; [|exact Hcause].
  intros fetch'.
  destruct (sendMessage_cases E trim fetch' selectedSubModel selectedRegion drivingDatasets this)
    as [Hsame | [_ Hsent]].
  - exfalso. unfold Panel.sendMessage in Hsame. rewrite Hin, Hty in Hsame.
    simpl in Hsame. rewrite Hask in Hsame.
    apply (f_equal Panel.messages) in Hsame. simpl in Hsame. unfold push in Hsame.
    rewrite <- app_assoc in Hsame.
    apply (f_equal (@length _)) in Hsame. rewrite length_app in Hsame. simpl in Hsame. lia.
  - rewrite Hsent, Hask. reflexivity.
Qed.

Lemma sendMessage_needs_datasets_witness :
  Panel.sendMessage sample_engine Panel.trim_ascii (answering (VObj [("reply", VStr "ok")]))
    VNull (VStr "Hubei") VUndef (Panel.set_userInput "Is the river rising?" Panel.initial)
  = Panel.mkData "" false false
      [Panel.mkMsg "ai" (VStr Panel.greeting);
       Panel.mkMsg "user" (VStr "Is the river rising?");
       Panel.mkMsg "ai"
         (VStr "抱歉，我遇到了一些麻烦，暂时无法回答。错误信息: Cannot read properties of undefined (reading 'map')")].
Proof.
  destruct (sendMessage_needs_datasets sample_engine Panel.trim_ascii
              (answering (VObj [("reply", VStr "ok")])) VNull (VStr "Hubei") VUndef
              (Panel.set_userInput "Is the river rising?" Panel.initial)
              ltac:(discriminate) eq_refl eq_refl) as (cause & Hsend & _).
  rewrite (Hsend (answering (VObj [("reply", VStr "ok")]))).
  pose proof (Hsend (answering (VObj [("reply", VStr "ok")]))) as H.
  vm_compute in H. inversion H. reflexivity.
Defined.

(** X8: what the panel shows for each answer to its request.  An ok answer
    whose body is not null is shown as its reply field, so an ok answer
    without one gives a message whose text is undefined; a non-ok answer whose
    body is not null is shown as the apology with its message field, or with
    the default text when it has none, and with the engine's type error when
    that message is an object that cannot be made a text (it has a toString
    field of its own); a body that is null is shown as the apology with the
    type error of the read; an answer whose body is not JSON, and a request
    that could not be made, are shown as the apology with the error. *)
Theorem sendMessage_shows (E : engine)
    (fetch : string -> string -> option string -> result response)
    (selectedSubModel selectedRegion drivingDatasets : value)
    (userMessage : string) (requestPayload : value) :
  PanelHealth.request_payload selectedSubModel selectedRegion drivingDatasets userMessage
  = Ok requestPayload ->
  let answer := fetch "POST" "/api/chat" (Some (stringify_text E requestPayload)) in
  let shown :=
    Panel.shown (Panel.ask E fetch selectedSubModel selectedRegion drivingDatasets userMessage) in
  let apology (cause : string) :=
    VStr ("抱歉，我遇到了一些麻烦，暂时无法回答。错误信息: " ++ cause) in
  (forall rsp data,
      answer = Ok rsp -> ok rsp = true -> json rsp = Ok data ->
      (nullish data = false -> shown = prop data "reply")
      /\ (nullish data = true ->
          shown = apology ("Cannot read properties of " ++ type_name data
                           ++ " (reading 'reply')")))
  /\ (forall rsp errorData,
         answer = Ok rsp -> ok rsp = false -> json rsp = Ok errorData ->
         let told := or_else (prop errorData "message") (VStr "与AI服务通信失败") in
         (nullish errorData = false -> printable told = true ->
          shown = apology (text_of E told))
         /\ (nullish errorData = false -> printable told = false ->
             shown = apology "Cannot convert object to primitive value")
         /\ (nullish errorData = true ->
             shown = apology ("Cannot read properties of " ++ type_name errorData
                              ++ " (reading 'message')")))
  /\ (forall rsp e, answer = Ok rsp -> json rsp = Throw e -> shown = apology (message e))
  /\ (forall e, answer = Throw e -> shown = apology (message e)).
Proof.
  intros Hp answer shown apology. subst shown. rewrite ask_request, Hp. fold answer.
  split; [|split; [|split]].
  - intros rsp data -> Hok Hj. rewrite Hok, Hj. simpl. split.
    + intros Hn. rewrite (get_prop _ _ Hn). reflexivity.
    + intros Hn. destruct data; try discriminate; reflexivity.
  - intros rsp data -> Hok Hj told. rewrite Hok, Hj. simpl. split; [|split].
    + intros Hn Hprint. rewrite (get_prop _ _ Hn).
      fold told. rewrite (to_string_printable E _ Hprint). reflexivity.
    + intros Hn Hprint. rewrite (get_prop _ _ Hn).
      fold told. rewrite (to_string_unprintable_error E _ Hprint). reflexivity.
    + intros Hn. destruct data; try discriminate; reflexivity.
  - intros rsp e -> Hj. rewrite Hj. destruct (ok rsp); reflexivity.
  - intros e ->. reflexivity.
Qed.

Lemma sendMessage_shows_witness :
  Panel.shown (Panel.ask sample_engine (answering (VObj [("answer", VStr "Stay clear.")]))
                 VNull (VStr "Hubei") (VArr []) "Is the river rising?")
  = VUndef.
Proof.
  exact (proj1 (proj1 (sendMessage_shows sample_engine
                         (answering (VObj [("answer", VStr "Stay clear.")]))
                         VNull (VStr "Hubei") (VArr []) "Is the river rising?" _ eq_refl)
                  _ (VObj [("answer", VStr "Stay clear.")]) eq_refl eq_refl eq_refl)
           eq_refl).
Defined.

(** A non-ok answer whose message cannot be made a text: the panel shows the
    engine's type error. *)
Lemma sendMessage_message_without_text :
  Panel.shown
    (Panel.ask sample_engine
       (fun _ _ _ =>
          Ok (mkResponse false (Ok "")
                (Ok (VObj [("message", VObj [("toString", VNull)])]))))
       VNull (VStr "Hubei") (VArr []) "Is the river rising?")
  = VStr "抱歉，我遇到了一些麻烦，暂时无法回答。错误信息: Cannot convert object to primitive value".
Proof. reflexivity. Qed.


(** ** The chat panel in use *)

Lemma conversation_weaken (l : list Panel.msg) :
  PanelHealth.conversation false l = true -> PanelHealth.conversation true l = true.
Proof.
  assert (H : forall n l, (length l <= n)%nat ->
                          PanelHealth.conversation false l = true ->
                          PanelHealth.conversation true l = true).
  { induction n as [|n IH]; intros k Hn Hk.
    - destruct k; [reflexivity|simpl in Hn; lia].
    - destruct k as [|m rest]; [reflexivity|]. simpl in *.
      destruct (PanelHealth.is_user m).
      + destruct rest as [|a after]; [reflexivity|].
        apply andb_prop in Hk as [Ha Hafter]. rewrite Ha. simpl.
        apply IH; [simpl in Hn; lia|exact Hafter].
      + apply andb_prop in Hk as [Hm Hrest]. rewrite Hm. simpl.
        apply IH; [lia|exact Hrest]. }
  apply (H (length l)). lia.
Qed.

(** A message of the user may follow a conversation in which every message
    of the user is answered; it then waits for its answer. *)
Lemma conversation_push_user (l : list Panel.msg) (m : Panel.msg) :
  PanelHealth.is_user m = true ->
  PanelHealth.conversation false l = true ->
  PanelHealth.conversation true (push l m) = true.
Proof.
  intros Hm. unfold push.
  assert (H : forall n l, (length l <= n)%nat ->
                          PanelHealth.conversation false l = true ->
                          PanelHealth.conversation true (l ++ [m]) = true).
  { induction n as [|n IH]; intros k Hn Hk.
    - destruct k; [simpl; rewrite Hm; reflexivity|simpl in Hn; lia].
    - destruct k as [|x rest]; [simpl; rewrite Hm; reflexivity|]. simpl in *.
      destruct (PanelHealth.is_user x).
      + destruct rest as [|a after]; [discriminate|]. simpl.
        apply andb_prop in Hk as [Ha Hafter]. rewrite Ha. simpl.
        apply IH; [simpl in Hn; lia|exact Hafter].
      + apply andb_prop in Hk as [Hx Hrest]. rewrite Hx. simpl.
        apply IH; [lia|exact Hrest]. }
  apply (H (length l)). lia.
Qed.

(** A message of the analyst answers the message that waits, if one does. *)
Lemma conversation_push_ai (l : list Panel.msg) (a : Panel.msg) :
  PanelHealth.is_ai a = true ->
  PanelHealth.conversation true l = true ->
  PanelHealth.conversation false (push l a) = true.
Proof.
  intros Ha. unfold push.
  assert (Hnot : PanelHealth.is_user a = false).
  { unfold PanelHealth.is_ai, PanelHealth.is_user in *.
    apply String.eqb_eq in Ha. rewrite Ha. reflexivity. }
  assert (H : forall n l, (length l <= n)%nat ->
                          PanelHealth.conversation true l = true ->
                          PanelHealth.conversation false (l ++ [a]) = true).
  { induction n as [|n IH]; intros k Hn Hk.
    - destruct k; [simpl; rewrite Hnot, Ha; reflexivity|simpl in Hn; lia].
    - destruct k as [|x rest]; [simpl; rewrite Hnot, Ha; reflexivity|]. simpl in *.
      destruct (PanelHealth.is_user x).
      + destruct rest as [|b after]; [simpl; rewrite Ha; reflexivity|]. simpl.
        apply andb_prop in Hk as [Hb Hafter]. rewrite Hb. simpl.
        apply IH; [simpl in Hn; lia|exact Hafter].
      + apply andb_prop in Hk as [Hx Hrest]. rewrite Hx. simpl.
        apply IH; [lia|exact Hrest]. }
  apply (H (length l)). lia.
Qed.

Section SessionFacts.

Variable E : engine.
Variable trim : string -> string.
Variables selectedSubModel selectedRegion drivingDatasets : value.

Lemma first_push (l : list Panel.msg) (g m : Panel.msg) :
  (exists rest, l = g :: rest) -> exists rest, push l m = g :: rest.
Proof. intros [rest ->]. unfold push. simpl. eauto. Qed.

Lemma step_keeps (s : PanelHealth.session) (e : PanelHealth.event) :
  PanelHealth.kept s ->
  PanelHealth.kept (PanelHealth.step E trim selectedSubModel selectedRegion drivingDatasets s e).
Proof.
  unfold PanelHealth.kept. intros (Hty & Hch & Hfirst & Hconv & Htext).
  destruct e as [input | | answer | | answer]; simpl.
  - repeat split; assumption.
  - unfold PanelHealth.press_send.
    destruct (Text.nonempty (trim (Panel.userInput (PanelHealth.view s)))) eqn:Hin;
      [|repeat split; assumption].
    destruct (Panel.isTyping (PanelHealth.view s)) eqn:Htyping;
      [simpl; rewrite Htyping; repeat split; assumption|].
    simpl negb. simpl orb. cbv iota.
    assert (Huser : PanelHealth.conversation true
                      (push (Panel.messages (PanelHealth.view s))
                         (Panel.mkMsg "user"
                            (VStr (trim (Panel.userInput (PanelHealth.view s)))))) = true)
      by (apply conversation_push_user; [reflexivity|exact Hconv]).
    assert (Htext' : Forall (fun m => PanelHealth.is_user m = true ->
                                      PanelHealth.has_text m = true)
                       (push (Panel.messages (PanelHealth.view s))
                          (Panel.mkMsg "user"
                             (VStr (trim (Panel.userInput (PanelHealth.view s))))))).
    { unfold push. apply Forall_app. split; [exact Htext|].
      repeat constructor. intros _. exact Hin. }
    destruct (PanelHealth.request_payload _ _ _ _) as [requestPayload|error]; simpl.
    + repeat split; try assumption. apply first_push, Hfirst.
    + rewrite <- Hty. repeat split; try assumption.
      * apply first_push, first_push, Hfirst.
      * apply conversation_push_ai; [reflexivity|exact Huser].
      * unfold push at 1. apply Forall_app. split; [exact Htext'|].
        repeat constructor; try discriminate.
  - destruct (PanelHealth.sending s) eqn:Hs; [|rewrite Hs; repeat split; assumption].
    simpl. repeat split; try assumption.
    + apply first_push, Hfirst.
    + apply conversation_push_ai; [reflexivity|]. rewrite Hty in Hconv. exact Hconv.
    + unfold push. apply Forall_app. split; [exact Htext|].
      repeat constructor; try discriminate.
  - repeat split; try assumption. discriminate.
  - destruct (PanelHealth.checking s) as [|n] eqn:Hn;
      [rewrite Hn; repeat split; assumption|].
    assert (Hai : forall report,
               PanelHealth.conversation (Panel.isTyping (PanelHealth.view s))
                 (push (Panel.messages (PanelHealth.view s))
                    (Panel.mkMsg "ai" (VStr report))) = true).
    { intros report.
      assert (Hdone : PanelHealth.conversation false
                        (push (Panel.messages (PanelHealth.view s))
                           (Panel.mkMsg "ai" (VStr report))) = true).
      { apply conversation_push_ai; [reflexivity|].
        destruct (Panel.isTyping (PanelHealth.view s));
          [exact Hconv|apply conversation_weaken, Hconv]. }
      destruct (Panel.isTyping (PanelHealth.view s));
        [apply conversation_weaken, Hdone|exact Hdone]. }
    unfold PanelHealth.health_done.
    destruct (PanelHealth.health_text E answer); simpl;
      (repeat split; try assumption;
       [apply first_push, Hfirst | apply Hai
        | unfold push; apply Forall_app; split; [exact Htext|];
          repeat constructor; try discriminate]).
Qed.

(** X9: from the panel as it is created, after any sequence of edits of the
    input, calls of sendMessage and of checkHealth, and settlements of their
    requests in any order and with any answers: isTyping is true exactly while
    a send request awaits its answer (so at most one does), the list of
    messages still begins with the greeting, every message is the user's or
    the analyst's, no message of the user is empty, and each message of the
    user is followed at once by a message of the analyst, but for the last
    one while its request is pending.  Once no request is pending,
    isTyping and isCheckingHealth are false. *)
Theorem session_keeps_conversation (events : list PanelHealth.event) :
  let s := PanelHealth.play E trim selectedSubModel selectedRegion drivingDatasets events in
  Panel.isTyping (PanelHealth.view s)
  = match PanelHealth.sending s with Some _ => true | None => false end
  /\ (PanelHealth.checking s = O -> Panel.isCheckingHealth (PanelHealth.view s) = false)
  /\ (exists rest,
         Panel.messages (PanelHealth.view s) = Panel.mkMsg "ai" (VStr Panel.greeting) :: rest)
  /\ PanelHealth.conversation (Panel.isTyping (PanelHealth.view s))
       (Panel.messages (PanelHealth.view s)) = true
  /\ Forall (fun m => PanelHealth.is_user m = true -> PanelHealth.has_text m = true)
       (Panel.messages (PanelHealth.view s)).
Proof.
  unfold PanelHealth.play.
  assert (H : forall s, PanelHealth.kept s ->
                        PanelHealth.kept (fold_left
                                (PanelHealth.step E trim selectedSubModel selectedRegion
                                   drivingDatasets) events s)).
  { induction events as [|e events IH]; intros s Hs; [exact Hs|].
    simpl. apply IH, step_keeps, Hs. }
  apply (H PanelHealth.opened). unfold PanelHealth.kept. simpl.
  repeat split; eauto.
Qed.

(** The two steps of a send, with nothing in between, are [sendMessage] with
    its awaits run to completion. *)
Lemma press_then_settle
    (fetch : string -> string -> option string -> result response)
    (s : PanelHealth.session) :
  PanelHealth.sending s = None ->
  let pressed := PanelHealth.press_send E trim selectedSubModel selectedRegion drivingDatasets s in
  PanelHealth.view
    (match PanelHealth.sending pressed with
     | Some sent =>
         PanelHealth.step E trim selectedSubModel selectedRegion drivingDatasets pressed
           (PanelHealth.SendSettles (fetch "POST" "/api/chat" (Some sent)))
     | None => pressed
     end)
  = Panel.sendMessage E trim fetch selectedSubModel selectedRegion drivingDatasets
      (PanelHealth.view s).
Proof.
  intros Hs. unfold PanelHealth.press_send, Panel.sendMessage. cbv zeta.
  destruct (negb (Text.nonempty (trim (Panel.userInput (PanelHealth.view s))))
            || Panel.isTyping (PanelHealth.view s)); [rewrite Hs; reflexivity|].
  rewrite ask_request.
  destruct (PanelHealth.request_payload _ _ _ _) as [requestPayload|error]; simpl.
  - unfold PanelHealth.send_done, PanelHealth.reply_of.
    destruct (fetch "POST" "/api/chat" (Some (stringify_text E requestPayload))) as [rsp|e];
      [|reflexivity].
    destruct (ok rsp); simpl.
    + destruct (json rsp) as [data|e]; [|reflexivity].
      destruct (get data "reply"); reflexivity.
    + destruct (json rsp) as [data|e]; [|reflexivity].
      destruct (get data "message") as [msg|]; [|reflexivity].
      destruct (to_string E _); reflexivity.
  - rewrite Hs. reflexivity.
Qed.

End SessionFacts.

(** ** The panel served by the proxy *)

Lemma map_result_Forall {A B : Type} (f : A -> result B) (P : B -> Prop) (l : list A)
    (ys : list B) :
  (forall x y, f x = Ok y -> P y) -> map_result f l = Ok ys -> Forall P ys.
Proof.
  intros Hf. revert ys. induction l as [|x l IH]; simpl; intros ys H.
  - inversion H. constructor.
  - destruct (f x) as [y|e] eqn:Hx; [|discriminate].
    destruct (map_result f l) as [ys'|e]; [|discriminate].
    inversion H. constructor; eauto.
Qed.

Lemma after_call_cases (E : engine) (question : value)
    (answer : result response) :
  (exists aiReply,
      after_call E question answer = respond 200 (VObj [("reply", VStr aiReply)])
      /\ Text.nonempty aiReply = true)
  \/ exists e, after_call E question answer = respond 500 (failure_body e).
Proof.
  unfold after_call.
  destruct answer as [r|e]; [|right; eauto].
  destruct (ok r); simpl.
  - destruct (json r) as [v|e]; [|right; eauto].
    destruct (extract_reply E question v) as [s|e] eqn:He; [|right; eauto].
    left. exists s. split; [reflexivity|]. apply (extract_reply_nonempty _ _ _ _ He).
  - destruct (text r); right; eauto.
Qed.

Section PanelToProxy.

Variable E : engine.
Variable w : world.
Variables selectedSubModel selectedRegion drivingDatasets : value.

(** What the proxy does with a request of the panel. *)
Lemma chat_on_panel_request (userMessage : string) (requestPayload : value) :
  Text.nonempty userMessage = true ->
  PanelHealth.request_payload selectedSubModel selectedRegion drivingDatasets userMessage
  = Ok requestPayload ->
  exists input_data,
    run (chat E w (Wire.fields_of requestPayload))
    = ([HttpCall "POST" langgraphUrl (payload E input_data)],
       Ok (after_call E (VStr userMessage)
             (fetch w "POST" langgraphUrl (payload E input_data)))).
Proof.
  intros Hin Hp. unfold PanelHealth.request_payload in Hp.
  destruct drivingDatasets as [| | | | |items|]; try discriminate. simpl in Hp.
  destruct (map_result _ items) as [ds|e] eqn:Hds; [|discriminate].
  inversion Hp; subst requestPayload. clear Hp.
  assert (Hobj : Forall (fun d => exists fs, d = VObj fs) ds).
  { eapply map_result_Forall; [|exact Hds].
    intros x y H. simpl in H. destruct (get x "name"); [|discriminate].
    destruct (get x "source"); [|discriminate]. inversion H. eauto. }
  assert (Hsent : forallb (fun x => negb (nullish x))
                    (map (fun x => match x with VUndef => VNull | _ => Wire.wire x end) ds)
                  = true).
  { clear Hds. induction Hobj as [|d ds [fs ->] _ IH]; [reflexivity|].
    simpl. exact IH. }
  rewrite chat_run. cbv zeta.
  assert (Hq : field (Wire.fields_of
                        (VObj [("question", VStr userMessage);
                               ("context", VObj [("region", selectedRegion);
                                                 ("model", selectedSubModel);
                                                 ("datasets", VArr ds)])])) "question"
               = VStr userMessage) by reflexivity.
  rewrite Hq. simpl truthy. rewrite Hin.
  rewrite build_usable; [eexists; reflexivity|].
  unfold context_usable, entries_ok, listed.
  destruct selectedRegion, selectedSubModel; simpl;
    (destruct ds; [reflexivity|exact Hsent]).
Qed.

(** X10: a request that the chat panel sends always passes the proxy's
    validation: served with it, /api/chat never answers 400 and never fails
    before the call; it makes exactly one POST to the core and answers 200 or
    500. *)
Theorem panel_request_reaches_core (userMessage : string) (requestPayload : value) :
  Text.nonempty userMessage = true ->
  PanelHealth.request_payload selectedSubModel selectedRegion drivingDatasets userMessage
  = Ok requestPayload ->
  exists sent r,
    run (chat E w (Wire.fields_of requestPayload))
    = ([HttpCall "POST" langgraphUrl (Some sent)], Ok r)
    /\ (status r = 200 \/ status r = 500).
Proof.
  intros Hin Hp. destruct (chat_on_panel_request _ _ Hin Hp) as [d Hrun].
  rewrite Hrun. unfold payload. do 2 eexists. split; [reflexivity|].
  apply after_call_status.
Qed.

(** X11: when the panel's request is answered by the proxy, the analyst's
    message is never empty or undefined: it is the reply of a 200 response,
    and the apology followed by the proxy's own message otherwise. *)
Theorem panel_shows_proxy_answer
    (fetch : string -> string -> option string -> result response)
    (userMessage : string) (requestPayload : value) :
  Text.nonempty userMessage = true ->
  PanelHealth.request_payload selectedSubModel selectedRegion drivingDatasets userMessage
  = Ok requestPayload ->
  (forall r, snd (run (chat E w (Wire.fields_of requestPayload))) = Ok r ->
             fetch "POST" "/api/chat" (Some (stringify_text E requestPayload))
             = Ok (Wire.express_response E r)) ->
  let shown :=
    Panel.shown (Panel.ask E fetch selectedSubModel selectedRegion drivingDatasets userMessage) in
  exists r,
    snd (run (chat E w (Wire.fields_of requestPayload))) = Ok r
    /\ (exists s, shown = VStr s /\ s <> "")
    /\ (status r = 200 -> exists s, body r = VObj [("reply", VStr s)] /\ shown = VStr s)
    /\ (status r <> 200 ->
        exists m, body r = VObj [("message", VStr m)]
                  /\ shown = VStr ("抱歉，我遇到了一些麻烦，暂时无法回答。错误信息: " ++ m)).
Proof.
  intros Hin Hp Hserved shown. subst shown.
  destruct (chat_on_panel_request _ _ Hin Hp) as [d Hrun].
  rewrite Hrun in *. simpl snd in *. eexists. split; [reflexivity|].
  rewrite ask_request, Hp. cbv zeta. rewrite (Hserved _ eq_refl).
  destruct (after_call_cases E (VStr userMessage)
              (Server.fetch w "POST" langgraphUrl (payload E d))) as [(s & -> & Hs) | [e ->]].
  - simpl. repeat split.
    + exists s. split; [reflexivity|]. apply nonempty_neq, Hs.
    + intros _. eauto.
    + intros H. exfalso. apply H. reflexivity.
  - simpl. repeat split.
    + eexists. split; [reflexivity|]. discriminate.
    + discriminate.
    + intros _. eexists. split; reflexivity.
Qed.

End PanelToProxy.

Lemma panel_request_reaches_core_witness :
  exists sent r,
    run (chat sample_engine
           (sample_world "2025-06-01T08:00:00.000Z"
              (VObj [("final_report", VObj [("summary", VStr "No flood risk.")])]))
           (Wire.fields_of
              (VObj [("question", VStr "Is the river rising?");
                     ("context", VObj [("region", VUndef);
                                       ("model", VObj [("name", VStr "LISFLOOD")]);
                                       ("datasets", VArr [VObj [("name", VStr "gauges");
                                                                 ("source", VUndef)]])])])))
    = ([HttpCall "POST" langgraphUrl (Some sent)], Ok r)
    /\ (status r = 200 \/ status r = 500).
Proof.
  exact (panel_request_reaches_core sample_engine
           (sample_world "2025-06-01T08:00:00.000Z"
              (VObj [("final_report", VObj [("summary", VStr "No flood risk.")])]))
           (VObj [("name", VStr "LISFLOOD")]) VUndef
           (VArr [VObj [("name", VStr "gauges")]])
           "Is the river rising?" _ eq_refl eq_refl).
Defined.

Lemma panel_shows_proxy_answer_witness :
  Panel.shown
    (Panel.ask sample_engine
       (fun _ _ _ =>
          Ok (Wire.express_response sample_engine
                (respond 200 (VObj [("reply", VStr "**总结:** No flood risk.")]))))
       VNull (VStr "Hubei") (VArr []) "Is the river rising?")
  = VStr "**总结:** No flood risk.".
Proof.
  destruct (panel_shows_proxy_answer sample_engine
              (sample_world "2025-06-01T08:00:00.000Z"
                 (VObj [("final_report", VObj [("summary", VStr "No flood risk.")])]))
              VNull (VStr "Hubei") (VArr [])
              (fun _ _ _ =>
                 Ok (Wire.express_response sample_engine
                       (respond 200 (VObj [("reply", VStr "**总结:** No flood risk.")]))))
              "Is the river rising?" _ eq_refl eq_refl
              ltac:(intros r H; vm_compute in H; inversion H; reflexivity))
    as (r & Hrun & _ & H200 & _).
  vm_compute in Hrun. inversion Hrun; subst r.
  destruct (H200 eq_refl) as (s & Hbody & Hshown).
  inversion Hbody; subst s. exact Hshown.
Defined.

(** X12: when the panel's health request is answered by the health proxy,
    checkHealth shows the all-clear, with the core's status pretty-printed,
    exactly when the proxy's own call returned an ok JSON response; otherwise
    it shows the connection failure with the proxy's message.  The third text,
    for a request that could not be made, does not occur. *)
Theorem checkHealth_shows_proxy_answer (E : engine)
    (w : world) (fetch : string -> string -> option string -> result response)
    (this : Panel.data) :
  (forall r, snd (run (health w)) = Ok r ->
             fetch "GET" "/api/langgraph/health" None = Ok (Wire.express_response E r)) ->
  let answer := Server.fetch w "GET" healthUrl None in
  exists report,
    PanelHealth.checkHealth E fetch this
    = Panel.mkData (Panel.userInput this) (Panel.isTyping this) false
        (Panel.messages this ++ [Panel.mkMsg "ai" (VStr report)])%list
    /\ (forall v, ok_json answer = Some v ->
          report = PanelHealth.health_header ++ "✅ LangGraph应急管理系统运行正常"
                   ++ Text.nl ++ Text.nl ++ "**详细信息:**" ++ Text.nl
                   ++ PanelHealth.pretty_text E (Wire.wire v))
    /\ (ok_json answer = None ->
        exists m,
          report = PanelHealth.health_header ++ "❌ LangGraph应急管理系统连接失败"
                   ++ Text.nl ++ Text.nl ++ "**错误信息:** " ++ "LangGraph健康检查失败: " ++ m).
Proof.
  intros Hserved answer.
  unfold PanelHealth.checkHealth, PanelHealth.health_done, PanelHealth.health_text.
  revert Hserved.
  unfold run, health, try_catch, bind, http_fetch, lift, ret, throw, push. simpl app.
  fold answer. unfold ok_json.
  destruct answer as [rsp|e].
  - destruct (ok rsp); simpl.
    + destruct (json rsp) as [v|e]; simpl; intros Hserved; rewrite (Hserved _ eq_refl).
      * destruct v; simpl; (eexists; split; [reflexivity|]; split;
          [intros v' Hv'; inversion Hv'; reflexivity|discriminate]).
      * simpl. eexists. split; [reflexivity|]. split; [discriminate|]. eauto.
    + destruct (text rsp) as [t|e]; simpl; intros Hserved; rewrite (Hserved _ eq_refl);
        simpl; (eexists; split; [reflexivity|]; split; [discriminate|]; eauto).
  - simpl. intros Hserved. rewrite (Hserved _ eq_refl). simpl.
    eexists. split; [reflexivity|]. split; [discriminate|]. eauto.
Qed.

Lemma checkHealth_shows_proxy_answer_witness :
  exists report,
    PanelHealth.checkHealth sample_engine
      (fun _ _ _ =>
         Ok (Wire.express_response sample_engine
               (respond 200 (VObj [("success", VBool true);
                                   ("langgraph_status",
                                    VObj [("status", VStr "healthy");
                                          ("backends", VArr [])])]))))
      Panel.initial
    = Panel.mkData "" false false
        [Panel.mkMsg "ai" (VStr Panel.greeting); Panel.mkMsg "ai" (VStr report)]
    /\ report
       = PanelHealth.health_header ++ "✅ LangGraph应急管理系统运行正常"
         ++ Text.nl ++ Text.nl ++ "**详细信息:**" ++ Text.nl
         ++ "{" ++ Text.nl ++ "  " ++ Text.dquote ++ "status" ++ Text.dquote ++ ": "
         ++ Text.dquote ++ "healthy" ++ Text.dquote ++ "," ++ Text.nl
         ++ "  " ++ Text.dquote ++ "backends" ++ Text.dquote ++ ": []" ++ Text.nl ++ "}".
Proof.
  destruct (checkHealth_shows_proxy_answer sample_engine
              (sample_world "2025-06-01T08:00:00.000Z"
                 (VObj [("status", VStr "healthy"); ("backends", VArr [])]))
              (fun _ _ _ =>
                 Ok (Wire.express_response sample_engine
                       (respond 200 (VObj [("success", VBool true);
                                           ("langgraph_status",
                                            VObj [("status", VStr "healthy");
                                                  ("backends", VArr [])])]))))
              Panel.initial
              ltac:(intros r H; vm_compute in H; inversion H; reflexivity))
    as (report & Hrun & Hok & _).
  exists report. split; [exact Hrun|].
  exact (Hok _ eq_refl).
Defined.

(** ** The send button *)

(** X13: the template disables the send button exactly when a call of
    sendMessage would do nothing: on a disabled button the call leaves the
    panel as it is, and on an enabled one it changes it (the list of messages
    grows by two). *)
Theorem send_button_matches_guard (E : engine)
    (trim : string -> string)
    (fetch : string -> string -> option string -> result response)
    (selectedSubModel selectedRegion drivingDatasets : value) (this : Panel.data) :
  let after :=
    Panel.sendMessage E trim fetch selectedSubModel selectedRegion drivingDatasets this in
  (PanelHealth.send_disabled trim this = true <-> after = this)
  /\ (PanelHealth.send_disabled trim this = false <->
      length (Panel.messages after) = Datatypes.S (Datatypes.S (length (Panel.messages this)))).
Proof.
  intros after. subst after. unfold PanelHealth.send_disabled.
  destruct (sendMessage_cases E trim fetch selectedSubModel selectedRegion drivingDatasets this)
    as [Hsame | [Hin Hsent]].
  - assert (Hd : negb (Text.nonempty (trim (Panel.userInput this))) || Panel.isTyping this
                 = true).
    { destruct (negb (Text.nonempty (trim (Panel.userInput this))) || Panel.isTyping this)
        eqn:Hg; [reflexivity|].
      exfalso. unfold Panel.sendMessage in Hsame. rewrite Hg in Hsame.
      apply (f_equal (fun d => length (Panel.messages d))) in Hsame. revert Hsame.
      destruct (Panel.ask _ _ _ _ _ _); simpl; unfold push; rewrite !length_app; simpl; lia. }
    rewrite Hd, Hsame. split; split; auto; try discriminate. lia.
  - assert (Hlen : length (Panel.messages
                             (Panel.sendMessage E trim fetch selectedSubModel selectedRegion
                                drivingDatasets this))
                   = Datatypes.S (Datatypes.S (length (Panel.messages this)))).
    { rewrite Hsent. simpl. rewrite length_app. simpl. lia. }
    assert (Hd : negb (Text.nonempty (trim (Panel.userInput this))) || Panel.isTyping this
                 = false).
    { destruct (negb (Text.nonempty (trim (Panel.userInput this))) || Panel.isTyping this)
        eqn:Hg; [|reflexivity].
      exfalso. unfold Panel.sendMessage in Hlen. rewrite Hg in Hlen. lia. }
    rewrite Hd. split; split; auto; try discriminate.
    intros Hsame. rewrite Hsame in Hlen. lia.
Qed.
